(** * Vision service: occupancy detector and reporting coordinator

    A shallow embedding of [packages/vision-service/src/detector.py]
    ([OccupancyDetector]) and of [packages/vision-service/src/main.py]
    ([VisionService.process_frame]), with the properties the specification
    states about them.

    Conventions of the embedding:
    - Python [int] is [Z]; Python [float] values (confidences, seconds) are
      exact rationals [Q];
    - a [datetime] is its number of microseconds ([Z]) since an arbitrary
      origin, a [timedelta] a number of microseconds;
    - the status strings ["available"] and ["occupied"], the only two the
      program ever assigns, are the two constructors of [status];
    - a camera frame is represented by [cv2.countNonZero] of its foreground
      mask (detector.py, lines 58-65), the only quantity of a frame that the
      state machine reads; the OpenCV background model and [previous_frame],
      which no decision reads, are left out;
    - every call of [datetime.now()] is an explicit reading, so that a call
      of [detect] receives one reading for each of its three call sites;
    - the answers of the dashboard client are inputs of a tick, the calls
      made are its output. *)

From Stdlib Require Import ZArith QArith Bool List Lia.
From Stdlib Require String Ascii.
Import ListNotations.

Open Scope Z_scope.

(** ** Values *)

Inductive status : Type :=
| available
| occupied.

Definition status_eqb (a b : status) : bool :=
  match a, b with
  | available, available => true
  | occupied, occupied => true
  | _, _ => false
  end.

(** Python's [min(a, b)] on floats: [b] when [b < a], otherwise [a]. *)
Definition pymin (a b : Q) : Q :=
  if Qle_bool a b then a else b.

Definition Qlt_bool (a b : Q) : bool := negb (Qle_bool b a).

(** [timedelta.total_seconds()]. *)
Definition total_seconds (td : Z) : Q := Qmake td 1000000.

Definition seconds (n : Z) : Z := n * 1000000.

(** ** detector.py *)

Module Detector.

(** The readings of [datetime.now()] at lines 70, 89 and 107 of one call of
    [detect]. *)
Record Clock : Type := {
  now_motion : Z;
  now_cooldown : Z;
  now_change : Z
}.

(** A call during which the clock reads [t] throughout. *)
Definition at_time (t : Z) : Clock :=
  {| now_motion := t; now_cooldown := t; now_change := t |}.

Record OccupancyDetector : Type := {
  motion_threshold : Z;
  confidence_threshold : Q;
  current_status : status;
  last_motion_time : option Z;
  last_status_change : option Z;
  motion_frames_count : Z;
  no_motion_frames_count : Z;
  motion_frames_required : Z;
  no_motion_frames_required : Z;
  occupied_cooldown_seconds : Z
}.

(** [OccupancyDetector.__init__]. *)
Definition init (motion_threshold : Z) (confidence_threshold : Q)
  : OccupancyDetector :=
  {| motion_threshold := motion_threshold;
     confidence_threshold := confidence_threshold;
     current_status := available;
     last_motion_time := None;
     last_status_change := None;
     motion_frames_count := 0;
     no_motion_frames_count := 0;
     motion_frames_required := 3;
     no_motion_frames_required := 40;
     occupied_cooldown_seconds := 30 |}.

(** Attribute assignments. *)
Definition set_current_status (self : OccupancyDetector) (v : status) :=
  {| motion_threshold := motion_threshold self;
     confidence_threshold := confidence_threshold self;
     current_status := v;
     last_motion_time := last_motion_time self;
     last_status_change := last_status_change self;
     motion_frames_count := motion_frames_count self;
     no_motion_frames_count := no_motion_frames_count self;
     motion_frames_required := motion_frames_required self;
     no_motion_frames_required := no_motion_frames_required self;
     occupied_cooldown_seconds := occupied_cooldown_seconds self |}.

Definition set_last_status_change (self : OccupancyDetector) (v : option Z) :=
  {| motion_threshold := motion_threshold self;
     confidence_threshold := confidence_threshold self;
     current_status := current_status self;
     last_motion_time := last_motion_time self;
     last_status_change := v;
     motion_frames_count := motion_frames_count self;
     no_motion_frames_count := no_motion_frames_count self;
     motion_frames_required := motion_frames_required self;
     no_motion_frames_required := no_motion_frames_required self;
     occupied_cooldown_seconds := occupied_cooldown_seconds self |}.

(** Lines 69-75: the update of the motion tracking. *)
Definition track_motion (self : OccupancyDetector) (has_motion : bool)
    (now : Z) : OccupancyDetector :=
  if has_motion then
    {| motion_threshold := motion_threshold self;
       confidence_threshold := confidence_threshold self;
       current_status := current_status self;
       last_motion_time := Some now;
       last_status_change := last_status_change self;
       motion_frames_count := motion_frames_count self + 1;
       no_motion_frames_count := 0;
       motion_frames_required := motion_frames_required self;
       no_motion_frames_required := no_motion_frames_required self;
       occupied_cooldown_seconds := occupied_cooldown_seconds self |}
  else
    {| motion_threshold := motion_threshold self;
       confidence_threshold := confidence_threshold self;
       current_status := current_status self;
       last_motion_time := last_motion_time self;
       last_status_change := last_status_change self;
       motion_frames_count := 0;
       no_motion_frames_count := no_motion_frames_count self + 1;
       motion_frames_required := motion_frames_required self;
       no_motion_frames_required := no_motion_frames_required self;
       occupied_cooldown_seconds := occupied_cooldown_seconds self |}.

(** Lines 81-101: the status assignment and the confidence. *)
Definition determine_status (self : OccupancyDetector) (now : Z)
  : OccupancyDetector * Q :=
  if motion_frames_count self >=? motion_frames_required self then
    (set_current_status self occupied,
     pymin 1 (Qmake (motion_frames_count self) 10))
  else if no_motion_frames_count self >=? no_motion_frames_required self then
    match current_status self, last_status_change self with
    | occupied, Some since =>
        let time_in_occupied := total_seconds (now - since) in
        if Qlt_bool time_in_occupied
             (inject_Z (occupied_cooldown_seconds self))
        then (self, 1 # 2)
        else (set_current_status self available,
              pymin 1 (Qmake (no_motion_frames_count self) 60))
    | _, _ =>
        (set_current_status self available,
         pymin 1 (Qmake (no_motion_frames_count self) 60))
    end
  else (self, 1 # 2).

(** [OccupancyDetector.detect]: the new state and the returned
    [(status, confidence, changed)]. *)
Definition detect (self : OccupancyDetector) (frame : option Z) (clk : Clock)
  : OccupancyDetector * (status * Q * bool) :=
  match frame with
  | None => (self, (current_status self, 0%Q, false))
  | Some motion_pixels =>
      let has_motion := motion_pixels >? motion_threshold self in
      let self := track_motion self has_motion (now_motion clk) in
      let previous_status := current_status self in
      let '(self, confidence) := determine_status self (now_cooldown clk) in
      let changed :=
        negb (status_eqb (current_status self) previous_status)
        && Qle_bool (confidence_threshold self) confidence in
      let self :=
        if changed then set_last_status_change self (Some (now_change clk))
        else self in
      (self, (current_status self, confidence, changed))
  end.

(** [get_time_since_last_motion], the clock reading [now]. *)
Definition get_time_since_last_motion (self : OccupancyDetector) (now : Z)
  : option Z :=
  match last_motion_time self with
  | None => None
  | Some since => Some (now - since)
  end.

(** [get_time_since_status_change], the clock reading [now]. *)
Definition get_time_since_status_change (self : OccupancyDetector) (now : Z)
  : option Z :=
  match last_status_change self with
  | None => None
  | Some since => Some (now - since)
  end.

(** [should_trigger_cleaning]. *)
Definition should_trigger_cleaning (self : OccupancyDetector)
    (cleaning_timeout_minutes : Z) (now : Z) : bool :=
  if negb (status_eqb (current_status self) available) then false
  else
    match get_time_since_status_change self now with
    | None => false
    | Some time_since_change =>
        Qle_bool (inject_Z (cleaning_timeout_minutes * 60))
                 (total_seconds time_since_change)
    end.

(** The components of the result of [detect]. *)
Definition result_status (r : OccupancyDetector * (status * Q * bool)) :=
  fst (fst (snd r)).
Definition result_confidence (r : OccupancyDetector * (status * Q * bool)) :=
  snd (fst (snd r)).
Definition result_changed (r : OccupancyDetector * (status * Q * bool)) :=
  snd (snd r).

(** A sequence of calls on one detector: the state they leave. *)
Fixpoint detect_all (self : OccupancyDetector)
    (calls : list (option Z * Clock)) : OccupancyDetector :=
  match calls with
  | [] => self
  | (frame, clk) :: rest => detect_all (fst (detect self frame clk)) rest
  end.

End Detector.

(** ** main.py *)

Module Service.

Import Detector.

(** A call of the dashboard client made by [process_frame], with the answer
    it got: [update_room_status(room_id, dashboard_status)] and
    [create_action_item(...)], whose arguments are constants of the service
    apart from the status. *)
Inductive call : Type :=
| update_room_status (dashboard_status : status) (success : bool)
| create_action_item (success : bool).

(** The attributes of [VisionService] that [process_frame] reads or
    writes. *)
Record VisionService : Type := {
  detector : OccupancyDetector;
  cleaning_timeout_minutes : Z;
  cleaning_action_created : bool;
  last_dashboard_status : option status
}.

(** [VisionService.__init__], with the values it reads from the environment
    as arguments. *)
Definition init (motion_threshold : Z) (occupancy_confidence : Q)
    (cleaning_timeout_minutes : Z) : VisionService :=
  {| detector := Detector.init motion_threshold occupancy_confidence;
     cleaning_timeout_minutes := cleaning_timeout_minutes;
     cleaning_action_created := false;
     last_dashboard_status := None |}.

Definition set_detector (self : VisionService) (v : OccupancyDetector) :=
  {| detector := v;
     cleaning_timeout_minutes := cleaning_timeout_minutes self;
     cleaning_action_created := cleaning_action_created self;
     last_dashboard_status := last_dashboard_status self |}.

Definition set_cleaning_action_created (self : VisionService) (v : bool) :=
  {| detector := detector self;
     cleaning_timeout_minutes := cleaning_timeout_minutes self;
     cleaning_action_created := v;
     last_dashboard_status := last_dashboard_status self |}.

Definition set_last_dashboard_status (self : VisionService)
    (v : option status) :=
  {| detector := detector self;
     cleaning_timeout_minutes := cleaning_timeout_minutes self;
     cleaning_action_created := cleaning_action_created self;
     last_dashboard_status := v |}.

(** What one iteration of the polling loop receives from outside: the frame
    of [camera.get_frame()], the clock readings, and the answers the
    dashboard client gives if it is called. *)
Record Tick : Type := {
  camera_frame : option Z;
  detect_clock : Clock;
  cleaning_clock : Z;
  update_ok : bool;
  action_ok : bool
}.

(** [dashboard_status != self.last_dashboard_status]. *)
Definition differs_from_last (dashboard_status : status)
    (last : option status) : bool :=
  match last with
  | None => true
  | Some s => negb (status_eqb dashboard_status s)
  end.

(** Lines 113-126: the status update. *)
Definition report_change (self : VisionService) (st : status)
    (changed : bool) (tk : Tick) : VisionService * list call :=
  if changed then
    let dashboard_status :=
      if status_eqb st occupied then occupied else available in
    let '(self, calls) :=
      if differs_from_last dashboard_status (last_dashboard_status self) then
        let success := update_ok tk in
        (if success
         then set_last_dashboard_status self (Some dashboard_status)
         else self,
         [update_room_status dashboard_status success])
      else (self, []) in
    (if status_eqb st occupied
     then set_cleaning_action_created self false
     else self,
     calls)
  else (self, []).

(** Lines 129-144: the cleaning check. *)
Definition check_cleaning (self : VisionService) (st : status) (tk : Tick)
  : VisionService * list call :=
  if status_eqb st available && negb (cleaning_action_created self) then
    if should_trigger_cleaning (detector self)
         (cleaning_timeout_minutes self) (cleaning_clock tk)
    then
      let success := action_ok tk in
      (if success then set_cleaning_action_created self true else self,
       [create_action_item success])
    else (self, [])
  else (self, []).

(** [VisionService.process_frame]: the new state and the dashboard calls
    made, in order. *)
Definition process_frame (self : VisionService) (tk : Tick)
  : VisionService * list call :=
  match camera_frame tk with
  | None => (self, [])
  | Some _ =>
      let '(det, (st, _, changed)) :=
        detect (detector self) (camera_frame tk) (detect_clock tk) in
      let self := set_detector self det in
      let '(self, calls1) := report_change self st changed tk in
      let '(self, calls2) := check_cleaning self st tk in
      (self, calls1 ++ calls2)
  end.

(** The loop of [run]: one [process_frame] per tick. *)
Fixpoint run (self : VisionService) (ticks : list Tick)
  : VisionService * list call :=
  match ticks with
  | [] => (self, [])
  | tk :: rest =>
      let '(self, calls) := process_frame self tk in
      let '(self, more) := run self rest in
      (self, calls ++ more)
  end.

End Service.

(** ** Notions of the specification *)

Module Spec.

Import Detector Service.

(** [n] calls with the same motion metric, the first at [start] and one
    every [step] microseconds. *)
Fixpoint calls_every (metric : Z) (start step : Z) (n : nat)
  : list (option Z * Clock) :=
  match n with
  | O => []
  | S k => (Some metric, at_time start)
           :: calls_every metric (start + step) step k
  end.

(** A tick of the service at time [time] on a frame with [metric] moving
    pixels, on which the dashboard answers [update] and [action]. *)
Definition tick_at (metric time : Z) (update action : bool) : Tick :=
  {| camera_frame := Some metric;
     detect_clock := at_time time;
     cleaning_clock := time;
     update_ok := update;
     action_ok := action |}.

(** [n] such ticks, the first at [start] and one every [step]
    microseconds. *)
Fixpoint ticks_every (metric : Z) (start step : Z) (update action : bool)
    (n : nat) : list Tick :=
  match n with
  | O => []
  | S k =>
      tick_at metric start update action
      :: ticks_every metric (start + step) step update action k
  end.

(** Calls that all carry the frame [frame], one for each clock. *)
Definition calls_with (frame : option Z) (clocks : list Clock)
  : list (option Z * Clock) :=
  map (fun clk => (frame, clk)) clocks.

(** The detector reports [available] after every tick of the run. *)
Fixpoint stays_available (self : VisionService) (ticks : list Tick) : bool :=
  match ticks with
  | [] => true
  | tk :: rest =>
      let self := fst (process_frame self tk) in
      status_eqb (current_status (detector self)) available
      && stays_available self rest
  end.

(** The number of action-creation requests among the calls. *)
Fixpoint action_requests (calls : list call) : nat :=
  match calls with
  | [] => O
  | create_action_item _ :: rest => S (action_requests rest)
  | update_room_status _ _ :: rest => action_requests rest
  end.

(** The status-update requests among the calls, in order. *)
Fixpoint status_updates (calls : list call) : list (status * bool) :=
  match calls with
  | [] => []
  | update_room_status s ok :: rest => (s, ok) :: status_updates rest
  | create_action_item _ :: rest => status_updates rest
  end.

(** No two consecutive requests carry the same status. *)
Fixpoint no_consecutive_repeat (l : list (status * bool)) : bool :=
  match l with
  | [] => true
  | (s1, _) :: rest =>
      match rest with
      | [] => true
      | (s2, _) :: _ => negb (status_eqb s1 s2) && no_consecutive_repeat rest
      end
  end.

(** No request repeats the status of the request before it when that one
    succeeded. *)
Fixpoint no_repeat_after_success (l : list (status * bool)) : bool :=
  match l with
  | [] => true
  | (s1, ok1) :: rest =>
      match rest with
      | [] => true
      | (s2, _) :: _ =>
          (negb ok1 || negb (status_eqb s1 s2))
          && no_repeat_after_success rest
      end
  end.

(** The tick makes [detect] report a change to the status [d]: the ticks
    on which a status update with [d] is due. *)
Definition reports_change (self : VisionService) (tk : Tick) (d : status)
  : bool :=
  match camera_frame tk with
  | None => false
  | Some _ =>
      let r := detect (detector self) (camera_frame tk) (detect_clock tk) in
      result_changed r && status_eqb (result_status r) d
  end.

(** The tick finds the room available and the cleaning timeout reached:
    the ticks on which an action creation is due while the flag is
    unset. *)
Definition cleaning_due (self : VisionService) (tk : Tick) : bool :=
  match camera_frame tk with
  | None => false
  | Some _ =>
      let r := detect (detector self) (camera_frame tk) (detect_clock tk) in
      status_eqb (result_status r) available
      && should_trigger_cleaning (fst r) (cleaning_timeout_minutes self)
           (cleaning_clock tk)
  end.

(** The configuration of [init]: the attributes no method assigns. *)
Definition default_settings (self : OccupancyDetector) : Prop :=
  motion_frames_required self = 3
  /\ no_motion_frames_required self = 40
  /\ occupied_cooldown_seconds self = 30.

(** Two states of one detector: they agree on the attributes that are set
    once. *)
Definition same_settings (a b : OccupancyDetector) : Prop :=
  motion_threshold b = motion_threshold a
  /\ confidence_threshold b = confidence_threshold a
  /\ motion_frames_required b = motion_frames_required a
  /\ no_motion_frames_required b = no_motion_frames_required a
  /\ occupied_cooldown_seconds b = occupied_cooldown_seconds a.

(** A recorded change, if any, is not later than [t]. *)
Definition changed_by (t : Z) (self : OccupancyDetector) : Prop :=
  match last_status_change self with
  | None => True
  | Some since => since <= t
  end.

End Spec.

(** ** Executions used as examples *)

Module Scenario.

Import Detector Service Spec.

(** A service with the confidence threshold 0.5 and the cleaning timeout
    of five minutes. *)
Definition half_confident : VisionService := Service.init 500 (1 # 2) 5.

(** Somebody arrives: three frames with motion, one every half second
    from 0 s. *)
Definition arrival : list Tick := ticks_every 800 0 500000 true true 3.

(** The room falls quiet: thirty-nine frames without motion, from 1.5 s to
    20.5 s. *)
Definition leaving : list Tick := ticks_every 0 1500000 500000 true true 39.

(** The fortieth frame without motion, at 21 s; the dashboard answers
    [update] to a status update. *)
Definition gone (update : bool) : Tick := tick_at 0 (seconds 21) update true.

Definition first_visit (update : bool) : list Tick :=
  arrival ++ leaving ++ [gone update].

(** The room is still empty at 321 s and later. *)
Definition still_empty (n : nat) : list Tick :=
  ticks_every 0 (seconds 321) 500000 true true n.

(** A second visit: frames with motion from 400 s. *)
Definition second_visit (n : nat) : list Tick :=
  ticks_every 800 (seconds 400) 500000 true true n.

(** The room falls quiet again: thirty-nine frames without motion from
    500 s to 519 s, the fortieth at 519.5 s, and one more at 1000 s. *)
Definition leaving_again : list Tick :=
  ticks_every 0 (seconds 500) 500000 true true 39.

Definition gone_again : Tick := tick_at 0 519500000 true true.

Definition much_later : Tick := tick_at 0 (seconds 1000) true true.

(** The third frame with motion of the second visit, at 401 s. *)
Definition third_motion_frame : Tick := tick_at 800 (seconds 401) true true.

(** At 321 s the action creation fails; half a second later the dashboard
    answers again. *)
Definition cleaning_fails : Tick := tick_at 0 (seconds 321) true false.

(** A tick on which the camera gives no frame. *)
Definition camera_fails : Tick :=
  {| camera_frame := None;
     detect_clock := at_time 321500000;
     cleaning_clock := 321500000;
     update_ok := true;
     action_ok := true |}.

Definition cleaning_retry : Tick := tick_at 0 (seconds 322) true true.

End Scenario.

(** ** camera.py *)

Module Camera.

(** The capture object of [cv2.VideoCapture(camera_index)]. *)
Inductive VideoCapture : Type :=
| video_capture (camera_index : Z).

(** What [capture.read()] does: [None] when it raises, otherwise the pair
    [(ret, frame)] it returns. *)
Definition Read : Type := option (bool * option Z).

(** What OpenCV does during one call of [connect]: whether
    [cv2.VideoCapture(...)] returns, what [isOpened()] answers ([None] when
    it raises), whether the three [capture.set] calls return, and the test
    read. *)
Record Device : Type := {
  construct_ok : bool;
  is_opened : option bool;
  configure_ok : bool;
  test_read : Read
}.

Record Camera : Type := {
  camera_index : Z;
  capture : option VideoCapture;
  is_connected : bool
}.

(** [Camera.__init__]. *)
Definition init (camera_index : Z) : Camera :=
  {| camera_index := camera_index; capture := None; is_connected := false |}.

Definition set_capture (self : Camera) (v : option VideoCapture) : Camera :=
  {| camera_index := camera_index self;
     capture := v;
     is_connected := is_connected self |}.

Definition set_is_connected (self : Camera) (v : bool) : Camera :=
  {| camera_index := camera_index self;
     capture := capture self;
     is_connected := v |}.

Definition is_none {A : Type} (o : option A) : bool :=
  match o with
  | None => true
  | Some _ => false
  end.

(** [not ret or frame is None], the frame otherwise. *)
Definition usable (ret : bool) (frame : option Z) : option Z :=
  if negb ret || is_none frame then None else frame.

(** [Camera.connect]: every exception is caught and gives [False]. *)
Definition connect (self : Camera) (dev : Device) : Camera * bool :=
  if negb (construct_ok dev) then (self, false)
  else
    let self :=
      set_capture self (Some (video_capture (camera_index self))) in
    match is_opened dev with
    | None => (self, false)
    | Some false => (self, false)
    | Some true =>
        if negb (configure_ok dev) then (self, false)
        else
          match test_read dev with
          | None => (self, false)
          | Some (ret, frame) =>
              match usable ret frame with
              | None => (self, false)
              | Some _ => (set_is_connected self true, true)
              end
          end
    end.

(** [Camera.get_frame], [rd] being what [capture.read()] does if it is
    called. *)
Definition get_frame (self : Camera) (rd : Read) : option Z :=
  if negb (is_connected self) || is_none (capture self) then None
  else
    match rd with
    | None => None
    | Some (ret, frame) => usable ret frame
    end.

(** [Camera.disconnect]; [capture.release()] returns. *)
Definition disconnect (self : Camera) : Camera :=
  match capture self with
  | Some _ => set_is_connected self false
  | None => self
  end.

(** [Camera.is_healthy], [opened] being the answer of
    [capture.isOpened()]. *)
Definition is_healthy (self : Camera) (opened : bool) : bool :=
  is_connected self && negb (is_none (capture self)) && opened.

(** The methods that assign attributes, as operations on a camera. *)
Inductive operation : Type :=
| do_connect (dev : Device)
| do_get_frame (rd : Read)
| do_disconnect.

Definition apply (self : Camera) (o : operation) : Camera :=
  match o with
  | do_connect dev => fst (connect self dev)
  | do_get_frame _ => self
  | do_disconnect => disconnect self
  end.

Definition apply_all (self : Camera) (ops : list operation) : Camera :=
  fold_left apply ops self.

End Camera.

(** ** dashboard_client.py: the addresses *)

Module Dashboard.

Import String.

Definition slash : Ascii.ascii := Ascii.ascii_of_nat 47.

(** [s.rstrip('/')]. *)
Fixpoint rstrip_slash (s : string) : string :=
  match s with
  | EmptyString => EmptyString
  | String c rest =>
      match rstrip_slash rest with
      | EmptyString =>
          if Ascii.eqb c slash then EmptyString else String c EmptyString
      | String c' kept => String c (String c' kept)
      end
  end.

Record DashboardClient : Type := {
  base_url : string;
  api_key : string
}.

(** [DashboardClient.__init__]. *)
Definition init (base_url api_key : string) : DashboardClient :=
  {| base_url := rstrip_slash base_url; api_key := api_key |}.

(** The address of [update_room_status], line 38. *)
Definition room_status_url (self : DashboardClient) (room_id : string)
  : string :=
  (base_url self ++ "/api/facility/rooms/" ++ room_id ++ "/status")%string.

(** The address of [create_action_item], line 84. *)
Definition actions_url (self : DashboardClient) : string :=
  (base_url self ++ "/api/actions")%string.

(** The address of [health_check], line 122. *)
Definition health_url (self : DashboardClient) : string :=
  (base_url self ++ "/api/auth/me")%string.

(** [n] slashes. *)
Fixpoint slashes (n : nat) : string :=
  match n with
  | O => EmptyString
  | S k => String slash (slashes k)
  end.

(** The string ends with a slash. *)
Fixpoint ends_with_slash (s : string) : bool :=
  match s with
  | EmptyString => false
  | String c EmptyString => Ascii.eqb c slash
  | String _ rest => ends_with_slash rest
  end.

End Dashboard.

(** ** main.py: the service with its camera *)

Module Loop.

Import Detector Service.

(** [VisionService] with the attributes [camera] and [running]. *)
Record Process : Type := {
  vision : VisionService;
  camera : Camera.Camera;
  running : bool
}.

(** [VisionService.__init__]. *)
Definition init (camera_index motion_threshold : Z) (occupancy_confidence : Q)
    (cleaning_timeout_minutes : Z) : Process :=
  {| vision :=
       Service.init motion_threshold occupancy_confidence
         cleaning_timeout_minutes;
     camera := Camera.init camera_index;
     running := false |}.

(** [VisionService.start]; [health] is the answer of
    [dashboard.health_check()], which is only logged. *)
Definition start (self : Process) (dev : Camera.Device) (health : bool)
  : Process * bool :=
  let '(cam, connected) := Camera.connect (camera self) dev in
  let self :=
    {| vision := vision self; camera := cam; running := running self |} in
  if negb connected then (self, false)
  else
    ({| vision := vision self; camera := camera self; running := true |},
     true).

(** [VisionService.stop]. *)
Definition stop (self : Process) : Process :=
  {| vision := vision self;
     camera := Camera.disconnect (camera self);
     running := false |}.

(** [VisionService.process_frame], the frame being the one of
    [self.camera.get_frame()]. *)
Definition process_frame (self : Process) (rd : Camera.Read) (tk : Tick)
  : Process * list call :=
  let tk :=
    {| camera_frame := Camera.get_frame (camera self) rd;
       detect_clock := detect_clock tk;
       cleaning_clock := cleaning_clock tk;
       update_ok := update_ok tk;
       action_ok := action_ok tk |} in
  let '(v, calls) := Service.process_frame (vision self) tk in
  ({| vision := v; camera := camera self; running := running self |}, calls).

End Loop.

(** ** Histories *)

Module History.

Import Detector Service.

(** The number of leading elements that satisfy [p]. *)
Fixpoint leading {A : Type} (p : A -> bool) (l : list A) : nat :=
  match l with
  | [] => O
  | x :: rest => if p x then S (leading p rest) else O
  end.

(** The frames the detector was given, without the calls on [None]. *)
Fixpoint frames_seen (calls : list (option Z * Clock)) : list Z :=
  match calls with
  | [] => []
  | (Some m, _) :: rest => m :: frames_seen rest
  | (None, _) :: rest => frames_seen rest
  end.

(** The number of most recent frames that all show motion, and that all
    show none. *)
Definition motion_streak (threshold : Z) (calls : list (option Z * Clock))
  : nat :=
  leading (fun m => m >? threshold) (rev (frames_seen calls)).

Definition quiet_streak (threshold : Z) (calls : list (option Z * Clock))
  : nat :=
  leading (fun m => negb (m >? threshold)) (rev (frames_seen calls)).

(** The reading of line 70 on the most recent frame that shows motion. *)
Fixpoint last_motion (threshold : Z) (calls : list (option Z * Clock))
    (before : option Z) : option Z :=
  match calls with
  | [] => before
  | (frame, clk) :: rest =>
      last_motion threshold rest
        (match frame with
         | Some m => if m >? threshold then Some (now_motion clk) else before
         | None => before
         end)
  end.

(** The reading of line 107 on the most recent call that changed
    [current_status], [before] if there is none. *)
Fixpoint last_flip (self : OccupancyDetector)
    (calls : list (option Z * Clock)) (before : option Z) : option Z :=
  match calls with
  | [] => before
  | (frame, clk) :: rest =>
      let next := fst (detect self frame clk) in
      last_flip next rest
        (if status_eqb (current_status next) (current_status self)
         then before else Some (now_change clk))
  end.

(** No change has been recorded, an available detector has seen fewer
    than three frames with motion in a row, an occupied one fewer than
    forty without. *)
Definition unreported (self : OccupancyDetector) : Prop :=
  last_status_change self = None
  /\ (current_status self = available -> motion_frames_count self < 3)
  /\ (current_status self = occupied -> no_motion_frames_count self < 40).

(** The ticks on which the camera gave a frame. *)
Definition has_frame (tk : Tick) : bool :=
  match camera_frame tk with
  | Some _ => true
  | None => false
  end.

(** The status of the most recent status update that succeeded, [before]
    if there is none. *)
Fixpoint last_sent (updates : list (status * bool)) (before : option status)
  : option status :=
  match updates with
  | [] => before
  | (d, ok) :: rest => last_sent rest (if ok then Some d else before)
  end.

(** One run of the service, tick by tick: the states after each tick. *)
Fixpoint states (self : VisionService) (ticks : list Tick)
  : list VisionService :=
  match ticks with
  | [] => []
  | tk :: rest =>
      let next := fst (process_frame self tk) in
      next :: states next rest
  end.

End History.

(** ** Basic facts *)

Lemma status_eqb_eq (a b : status) : status_eqb a b = true <-> a = b.
Proof. destruct a, b; simpl; split; congruence. Qed.

Lemma status_eqb_neq (a b : status) : status_eqb a b = false <-> a <> b.
Proof. destruct a, b; simpl; split; congruence. Qed.

Lemma status_eqb_refl (a : status) : status_eqb a a = true.
Proof. now destruct a. Qed.

Lemma Qlt_bool_iff (a b : Q) : Qlt_bool a b = true <-> (a < b)%Q.
Proof.
  unfold Qlt_bool. rewrite negb_true_iff. split.
  - intros H. apply Qnot_le_lt. intros Hle.
    apply Qle_bool_iff in Hle. congruence.
  - intros H. destruct (Qle_bool b a) eqn:E; [|reflexivity].
    apply Qle_bool_iff in E. exfalso. exact (Qlt_not_le _ _ H E).
Qed.

Lemma gtb_false (a b : Z) : a <= b -> (a >? b) = false.
Proof. intros H. rewrite Z.gtb_ltb. apply Z.ltb_ge. lia. Qed.

Lemma geb_false (a b : Z) : a < b -> (a >=? b) = false.
Proof. intros H. rewrite Z.geb_leb. apply Z.leb_gt. lia. Qed.

Lemma geb_true (a b : Z) : b <= a -> (a >=? b) = true.
Proof. intros H. rewrite Z.geb_leb. apply Z.leb_le. lia. Qed.

(** The cooldown test of line 90, on microseconds. *)
Lemma in_cooldown_iff (td cooldown : Z) :
  Qlt_bool (total_seconds td) (inject_Z cooldown) = true
  <-> td < seconds cooldown.
Proof.
  rewrite Qlt_bool_iff. unfold Qlt, total_seconds, inject_Z, seconds. simpl.
  lia.
Qed.

(** The timeout test of line 137, on microseconds. *)
Lemma timeout_reached_iff (td minutes : Z) :
  Qle_bool (inject_Z (minutes * 60)) (total_seconds td) = true
  <-> seconds (minutes * 60) <= td.
Proof.
  rewrite Qle_bool_iff. unfold Qle, total_seconds, inject_Z, seconds. simpl.
  lia.
Qed.

(** ** The detector *)

Module DetectorFacts.

Import Detector Spec.

Lemma set_current_status_same (s : OccupancyDetector) :
  set_current_status s (current_status s) = s.
Proof. now destruct s. Qed.

(** [determine_status] assigns nothing but [current_status]. *)
Lemma determine_status_frame (s s' : OccupancyDetector) (now : Z) (c : Q) :
  determine_status s now = (s', c) ->
  s' = set_current_status s (current_status s').
Proof.
  unfold determine_status. intros H.
  repeat match type of H with
         | (if ?b then _ else _) = _ => destruct b
         | match ?x with _ => _ end = _ => destruct x
         end;
    inversion H; subst; simpl; auto using set_current_status_same.
  all: symmetry; apply set_current_status_same.
Qed.

(** The equation of [detect] on a frame. *)
Lemma detect_frame (s : OccupancyDetector) (m : Z) (clk : Clock) :
  detect s (Some m) clk =
  let tracked := track_motion s (m >? motion_threshold s) (now_motion clk) in
  let decided := determine_status tracked (now_cooldown clk) in
  let changed :=
    negb (status_eqb (current_status (fst decided)) (current_status s))
    && Qle_bool (confidence_threshold s) (snd decided) in
  ((if changed
    then set_last_status_change (fst decided) (Some (now_change clk))
    else fst decided),
   (current_status (fst decided), snd decided, changed)).
Proof.
  unfold detect. cbv zeta.
  destruct (determine_status _ _) as [s' c] eqn:E.
  pose proof (determine_status_frame _ _ _ _ E) as Hs'.
  simpl fst; simpl snd.
  replace (current_status (track_motion s (m >? motion_threshold s)
                             (now_motion clk)))
    with (current_status s) by (unfold track_motion; now destruct (m >? _)).
  replace (confidence_threshold s') with (confidence_threshold s).
  2:{ rewrite Hs'. unfold track_motion. now destruct (m >? _). }
  destruct (negb _ && _); reflexivity.
Qed.

(** The status returned is the status stored. *)
Lemma detect_returns_current (s : OccupancyDetector) (f : option Z)
    (clk : Clock) :
  result_status (detect s f clk) = current_status (fst (detect s f clk)).
Proof.
  destruct f as [m|]; [|reflexivity].
  rewrite detect_frame. cbv zeta. unfold result_status. simpl.
  now destruct (negb _ && _).
Qed.

(** [changed] is reported only with a confidence that meets the threshold. *)
Lemma detect_changed_confident (s : OccupancyDetector) (f : option Z)
    (clk : Clock) :
  result_changed (detect s f clk) = true ->
  (confidence_threshold s <= result_confidence (detect s f clk))%Q.
Proof.
  destruct f as [m|]; [|discriminate].
  rewrite detect_frame. cbv zeta. unfold result_changed, result_confidence.
  simpl. intros H. apply andb_true_iff in H as [_ H].
  now apply Qle_bool_iff.
Qed.

(** [changed] is reported only when the stored status has flipped. *)
Lemma detect_changed_flips (s : OccupancyDetector) (f : option Z)
    (clk : Clock) :
  result_changed (detect s f clk) = true ->
  current_status (fst (detect s f clk)) <> current_status s.
Proof.
  destruct f as [m|]; [|discriminate].
  rewrite detect_frame. cbv zeta. unfold result_changed. simpl.
  intros H. rewrite H. simpl.
  apply andb_true_iff in H as [H _]. apply negb_true_iff in H.
  now apply status_eqb_neq.
Qed.

(** Without [changed], the time of the last change is kept. *)
Lemma detect_unchanged_keeps_change_time (s : OccupancyDetector)
    (f : option Z) (clk : Clock) :
  result_changed (detect s f clk) = false ->
  last_status_change (fst (detect s f clk)) = last_status_change s.
Proof.
  destruct f as [m|]; [|reflexivity].
  rewrite detect_frame. cbv zeta. unfold result_changed. simpl.
  intros H. rewrite H. simpl.
  destruct (determine_status _ _) as [s' c] eqn:E.
  rewrite (determine_status_frame _ _ _ _ E). simpl.
  unfold track_motion. now destruct (m >? _).
Qed.

(** The guard of lines 88-92: an occupied detector whose recorded change is
    less than the cooldown old stays occupied, whatever the frame. *)
Lemma cooldown_guard (s : OccupancyDetector) (f : option Z) (clk : Clock)
    (since : Z) :
  current_status s = occupied ->
  last_status_change s = Some since ->
  now_cooldown clk - since < seconds (occupied_cooldown_seconds s) ->
  current_status (fst (detect s f clk)) = occupied.
Proof.
  intros Hocc Hsince Hcool.
  destruct f as [m|]; [|exact Hocc].
  rewrite detect_frame. cbv zeta.
  assert (Hd : current_status
                 (fst (determine_status
                         (track_motion s (m >? motion_threshold s)
                            (now_motion clk)) (now_cooldown clk)))
               = occupied).
  { unfold determine_status, track_motion.
    apply in_cooldown_iff in Hcool.
    destruct (m >? motion_threshold s); simpl;
      rewrite ?Hocc, ?Hsince, ?Hcool;
      repeat match goal with
             | |- context [if ?b then _ else _] => destruct b
             end; simpl; auto. }
  simpl fst. destruct (negb _ && _); simpl; exact Hd.
Qed.

(** The settings are never assigned. *)
Lemma detect_same_settings (s : OccupancyDetector) (f : option Z)
    (clk : Clock) :
  same_settings s (fst (detect s f clk)).
Proof.
  destruct f as [m|]; [|now repeat split].
  rewrite detect_frame. cbv zeta. simpl fst.
  destruct (determine_status _ _) as [s' c] eqn:E.
  rewrite (determine_status_frame _ _ _ _ E). simpl fst.
  unfold same_settings, track_motion.
  destruct (negb _ && _), (m >? _); simpl; now repeat split.
Qed.

(** A frame without motion, while the run of such frames is shorter than
    required: nothing is decided. *)
Lemma quiet_call (s : OccupancyDetector) (m : Z) (clk : Clock) :
  m <= motion_threshold s ->
  0 < motion_frames_required s ->
  no_motion_frames_count s + 1 < no_motion_frames_required s ->
  detect s (Some m) clk =
  (track_motion s false (now_motion clk), (current_status s, 1 # 2, false)).
Proof.
  intros Hm Hreq Hrun. rewrite detect_frame. cbv zeta.
  replace (m >? motion_threshold s) with false
    by (symmetry; apply gtb_false; lia).
  unfold determine_status. simpl.
  replace (0 >=? motion_frames_required s) with false
    by (symmetry; apply geb_false; lia).
  replace (no_motion_frames_count s + 1 >=? no_motion_frames_required s)
    with false by (symmetry; apply geb_false; lia).
  simpl. now rewrite status_eqb_refl.
Qed.

(** A run of such frames only counts. *)
Lemma quiet_calls (clocks : list Clock) (s : OccupancyDetector) (m : Z) :
  m <= motion_threshold s ->
  0 < motion_frames_required s ->
  no_motion_frames_count s + Z.of_nat (length clocks)
    < no_motion_frames_required s ->
  let s' := detect_all s (calls_with (Some m) clocks) in
  same_settings s s'
  /\ current_status s' = current_status s
  /\ last_status_change s' = last_status_change s
  /\ no_motion_frames_count s'
     = no_motion_frames_count s + Z.of_nat (length clocks).
Proof.
  revert s.
  induction clocks as [|clk clocks IH]; intros s Hm Hreq Hrun; cbn zeta.
  - simpl. repeat split; lia.
  - cbn [calls_with map detect_all length] in *.
    rewrite quiet_call by lia. cbn [fst].
    set (s1 := track_motion s false (now_motion clk)).
    assert (H1 : same_settings s s1) by now repeat split.
    assert (Hst1 : current_status s1 = current_status s) by reflexivity.
    assert (Hl1 : last_status_change s1 = last_status_change s)
      by reflexivity.
    assert (Hn1 : no_motion_frames_count s1 = no_motion_frames_count s + 1)
      by reflexivity.
    clearbody s1.
    destruct H1 as (Ht & Hc & Hmr & Hnr & Hcd).
    destruct (IH s1) as ((Ht' & Hc' & Hmr' & Hnr' & Hcd') & Hst & Hl & Hn);
      try lia.
    unfold calls_with in *.
    repeat split; try congruence. rewrite Hn. lia.
Qed.

(** A call that turns an available detector occupied saw motion, so the
    count of frames without motion is zero after it. *)
Lemma entering_call (s : OccupancyDetector) (m : Z) (clk : Clock) :
  0 < motion_frames_required s ->
  current_status s = available ->
  current_status (fst (detect s (Some m) clk)) = occupied ->
  no_motion_frames_count (fst (detect s (Some m) clk)) = 0
  /\ (last_status_change (fst (detect s (Some m) clk))
       = last_status_change s
      \/ last_status_change (fst (detect s (Some m) clk))
         = Some (now_change clk)).
Proof.
  intros Hreq Hav. rewrite detect_frame. cbv zeta. simpl fst.
  destruct (determine_status _ _) as [s' c] eqn:E.
  pose proof (determine_status_frame _ _ _ _ E) as Hs'. simpl fst.
  intros Hocc.
  assert (Hs'occ : current_status s' = occupied)
    by (destruct (negb _ && _); exact Hocc).
  assert (Hmotion : (m >? motion_threshold s) = true).
  { destruct (m >? motion_threshold s) eqn:Em; [reflexivity|].
    exfalso. unfold determine_status, track_motion in E. simpl in E.
    replace (0 >=? motion_frames_required s) with false in E
      by (symmetry; apply geb_false; lia).
    rewrite Hav in E.
    destruct (_ >=? _) in E; inversion E; subst; simpl in Hs'occ;
      congruence. }
  rewrite Hs', Hmotion.
  destruct (negb _ && _); simpl; auto.
Qed.

(** Lines 93-98: a frame without motion that completes the required run,
    on an occupied detector with no recorded change or with one at least
    the cooldown old, makes the detector available. *)
Lemma cooldown_over (s : OccupancyDetector) (m : Z) (clk : Clock) :
  m <= motion_threshold s ->
  0 < motion_frames_required s ->
  no_motion_frames_required s <= no_motion_frames_count s + 1 ->
  current_status s = occupied ->
  match last_status_change s with
  | None => True
  | Some since =>
      seconds (occupied_cooldown_seconds s) <= now_cooldown clk - since
  end ->
  let confidence := pymin 1 (Qmake (no_motion_frames_count s + 1) 60) in
  snd (detect s (Some m) clk) =
  (available, confidence, Qle_bool (confidence_threshold s) confidence).
Proof.
  intros Hm Hreq Hrun Hocc Hold. rewrite detect_frame. cbv zeta.
  rewrite (gtb_false _ _ Hm).
  unfold determine_status, track_motion. simpl.
  rewrite (geb_false 0 (motion_frames_required s)) by lia.
  rewrite (geb_true _ _ Hrun). rewrite Hocc.
  destruct (last_status_change s) as [since|]; simpl.
  - destruct (Qlt_bool _ _) eqn:E.
    + apply in_cooldown_iff in E. lia.
    + reflexivity.
  - reflexivity.
Qed.

End DetectorFacts.

(** ** Claims on the detector *)

Module DetectorClaims.

Import Detector Spec DetectorFacts.

(** C9. For every detector state, [detect] on a [None] frame returns
    [(current_status, 0.0, False)] and leaves the state, hence each of
    [current_status], [motion_frames_count], [no_motion_frames_count],
    [last_motion_time] and [last_status_change], as it was. *)
Theorem C9_detect_none (self : OccupancyDetector) (clk : Clock) :
  detect self None clk = (self, (current_status self, 0%Q, false)).
Proof. reflexivity. Qed.

(** C1, at the default configuration (motion threshold 500, confidence
    threshold 0.7): after two frames with 800 moving pixels the status is
    [available]; the third such frame computes the confidence 0.3, below the
    threshold, and nevertheless leaves [current_status] at [occupied], while
    [changed] is false and no change time is recorded. *)
Theorem C1_status_assigned_below_threshold :
  let before :=
    detect_all (Detector.init 500 (7 # 10)) (calls_every 800 0 500000 2) in
  let r := detect before (Some 800) (at_time 1000000) in
  current_status before = available
  /\ (result_confidence r == 3 # 10)%Q
  /\ (result_confidence r < confidence_threshold before)%Q
  /\ current_status (fst r) = occupied
  /\ result_changed r = false
  /\ last_status_change (fst r) = None.
Proof. vm_compute. repeat split; reflexivity. Qed.

(** C2, at the default configuration: the detector becomes [occupied] on
    the third motion frame, at 1 s; forty frames without motion follow, one
    every half second; the fortieth, at 21 s, that is 20 s after the
    transition and within the cooldown of 30 s, sets [current_status] to
    [available]. *)
Theorem C2_available_within_cooldown :
  let entering :=
    detect_all (Detector.init 500 (7 # 10)) (calls_every 800 0 500000 2) in
  let entered := fst (detect entering (Some 800) (at_time (seconds 1))) in
  let quiet := detect_all entered (calls_every 0 1500000 500000 39) in
  let r := detect quiet (Some 0) (at_time (seconds 21)) in
  current_status entering = available
  /\ current_status entered = occupied
  /\ current_status quiet = occupied
  /\ seconds 21 - seconds 1 < seconds (occupied_cooldown_seconds entered)
  /\ current_status (fst r) = available.
Proof. vm_compute. repeat split; reflexivity. Qed.

(** C3 as stated fails: with the default confidence threshold 0.7 the
    third call returns [changed = False]. *)
Lemma C3_default_threshold_not_changed :
  let r :=
    detect (detect_all (Detector.init 500 (7 # 10))
              (calls_every 800 0 500000 2))
      (Some 800) (at_time 1000000) in
  ~ (result_status r = occupied /\ result_changed r = true).
Proof. vm_compute. intros [_ H]. discriminate H. Qed.

(** C3, amended. From the initial state with motion threshold 500, three
    consecutive calls with 800 moving pixels compute, on the third call,
    the confidence 3/10; [changed] is true exactly when the confidence
    threshold is at most 3/10, and the status returned is then
    [occupied]. *)
Theorem C3_third_motion_frame (threshold : Q) (clk1 clk2 clk3 : Clock) :
  let r :=
    detect (detect_all (Detector.init 500 threshold)
              [(Some 800, clk1); (Some 800, clk2)])
      (Some 800) clk3 in
  (result_confidence r == 3 # 10)%Q
  /\ result_changed r = Qle_bool threshold (3 # 10)
  /\ (Qle_bool threshold (3 # 10) = true -> result_status r = occupied).
Proof.
  cbv zeta. unfold detect_all.
  rewrite !detect_frame. cbv zeta. cbn -[Qle_bool].
  repeat split; reflexivity.
Qed.

Lemma C3_third_motion_frame_witness :
  Qle_bool (3 # 10) (3 # 10) = true
  /\ result_status
       (detect (detect_all (Detector.init 500 (3 # 10))
                  [(Some 800, at_time 0); (Some 800, at_time 500000)])
          (Some 800) (at_time 1000000)) = occupied.
Proof.
  split; [reflexivity|].
  apply (C3_third_motion_frame (3 # 10) (at_time 0) (at_time 500000)
           (at_time 1000000)).
  reflexivity.
Defined.

(** C4 as stated fails: at the default configuration the detector enters
    [occupied] at time 0 on its third motion frame; of forty frames without
    motion, the last at 35 s, the last one returns [available] with
    [changed = False], the confidence 40/60 being below 0.7. *)
Lemma C4_default_threshold_not_changed :
  let entering :=
    detect_all (Detector.init 500 (7 # 10)) (calls_every 800 0 0 2) in
  let entered := fst (detect entering (Some 800) (at_time 0)) in
  let r :=
    detect (detect_all entered (calls_every 0 500000 500000 39))
      (Some 0) (at_time (seconds 35)) in
  current_status entering = available
  /\ current_status entered = occupied
  /\ ~ (result_status r = available /\ result_changed r = true).
Proof.
  vm_compute. repeat split; try reflexivity.
  intros [_ H]. discriminate H.
Qed.

(** C4, amended. Take a detector with the settings of [init] and a
    non-negative motion threshold, available, with no change recorded
    after time 0, and let a call at time 0 turn it occupied. Of forty
    following calls on frames with no moving pixel, the last at 35 s, the
    last computes the confidence 40/60; [changed] is true exactly when the
    confidence threshold is at most 40/60, and the status returned is then
    [available]. *)
Theorem C4_after_cooldown (s : OccupancyDetector) (m : Z)
    (clocks : list Clock) :
  default_settings s ->
  0 <= motion_threshold s ->
  current_status s = available ->
  changed_by 0 s ->
  current_status (fst (detect s (Some m) (at_time 0))) = occupied ->
  length clocks = 39%nat ->
  let entered := fst (detect s (Some m) (at_time 0)) in
  let r :=
    detect (detect_all entered (calls_with (Some 0) clocks))
      (Some 0) (at_time (seconds 35)) in
  (result_confidence r == 40 # 60)%Q
  /\ result_changed r = Qle_bool (confidence_threshold s) (40 # 60)
  /\ (result_changed r = true -> result_status r = available).
Proof.
  intros (Hmr & Hnr & Hcd) Hthr Hav Hpast Hocc Hlen entered r.
  destruct (detect_same_settings s (Some m) (at_time 0))
    as (Ht1 & Hc1 & Hmr1 & Hnr1 & Hcd1).
  destruct (entering_call s m (at_time 0)) as [Hn1 Hl1]; [lia|assumption..|].
  fold entered in Ht1, Hc1, Hmr1, Hnr1, Hcd1, Hn1, Hl1, Hocc.
  destruct (quiet_calls clocks entered 0)
    as ((Ht2 & Hc2 & Hmr2 & Hnr2 & Hcd2) & Hst2 & Hl2 & Hn2); try lia.
  set (quiet := detect_all entered (calls_with (Some 0) clocks)) in *.
  clearbody quiet. clearbody entered.
  assert (Hold : match last_status_change quiet with
                 | None => True
                 | Some since =>
                     seconds (occupied_cooldown_seconds quiet)
                     <= now_cooldown (at_time (seconds 35)) - since
                 end).
  { rewrite Hl2, Hcd2, Hcd1, Hcd. unfold changed_by in Hpast.
    destruct Hl1 as [Hl1|Hl1]; rewrite Hl1.
    - destruct (last_status_change s); [|exact I].
      unfold seconds; cbn [now_cooldown at_time]. lia.
    - unfold seconds; cbn [now_cooldown now_change at_time]. lia. }
  pose proof (cooldown_over quiet 0 (at_time (seconds 35))) as Hlast.
  cbv zeta in Hlast.
  rewrite Hn2, Hn1, Hlen, Hc2, Hc1 in Hlast.
  change (pymin 1 (Qmake (0 + Z.of_nat 39 + 1) 60)) with (40 # 60) in Hlast.
  unfold result_confidence, result_changed, result_status. subst r.
  rewrite Hlast; try lia; try congruence; try assumption.
  cbn [fst snd]. repeat split; reflexivity.
Qed.

Lemma C4_after_cooldown_witness :
  let s := detect_all (Detector.init 500 (1 # 2)) (calls_every 800 0 0 2) in
  let clocks := map (fun c => snd c) (calls_every 0 500000 500000 39) in
  result_changed
    (detect (detect_all (fst (detect s (Some 800) (at_time 0)))
               (calls_with (Some 0) clocks))
       (Some 0) (at_time (seconds 35))) = true
  /\ result_status
       (detect (detect_all (fst (detect s (Some 800) (at_time 0)))
                  (calls_with (Some 0) clocks))
          (Some 0) (at_time (seconds 35))) = available.
Proof.
  intros s clocks.
  assert (H := C4_after_cooldown s 800 clocks).
  destruct H as (_ & Hc & Hs).
  - vm_compute. repeat split; reflexivity.
  - vm_compute. discriminate.
  - reflexivity.
  - exact I.
  - reflexivity.
  - reflexivity.
  - split.
    + rewrite Hc. reflexivity.
    + apply Hs. rewrite Hc. reflexivity.
Defined.

End DetectorClaims.

(** ** The coordinator *)

Module ServiceFacts.

Import Detector Service Spec DetectorFacts.

(** The equation of [process_frame] on a frame. *)
Lemma process_frame_frame (svc : VisionService) (tk : Tick) (m : Z) :
  camera_frame tk = Some m ->
  process_frame svc tk =
  let r := detect (detector svc) (Some m) (detect_clock tk) in
  let reported :=
    report_change (set_detector svc (fst r)) (result_status r)
      (result_changed r) tk in
  let checked := check_cleaning (fst reported) (result_status r) tk in
  (fst checked, snd reported ++ snd checked).
Proof.
  intros Hf. unfold process_frame. rewrite Hf. cbv zeta.
  unfold result_status, result_changed.
  destruct (detect _ _ _) as [det [[st c] changed]]. simpl.
  destruct (report_change _ _ _ _) as [svc1 calls1]. simpl.
  destruct (check_cleaning _ _ _) as [svc2 calls2]. reflexivity.
Qed.

Lemma process_frame_none (svc : VisionService) (tk : Tick) :
  camera_frame tk = None -> process_frame svc tk = (svc, []).
Proof. intros Hf. unfold process_frame. now rewrite Hf. Qed.

(** What [report_change] does, case by case. *)
Lemma report_change_cases (svc : VisionService) (st : status)
    (changed : bool) (tk : Tick) :
  let svc' := fst (report_change svc st changed tk) in
  let calls := snd (report_change svc st changed tk) in
  detector svc' = detector svc
  /\ cleaning_timeout_minutes svc' = cleaning_timeout_minutes svc
  /\ cleaning_action_created svc' =
     (if changed && status_eqb st occupied then false
      else cleaning_action_created svc)
  /\ ((calls = [] /\ last_dashboard_status svc' = last_dashboard_status svc
       /\ (changed = true -> last_dashboard_status svc = Some st))
      \/ (changed = true
          /\ last_dashboard_status svc <> Some st
          /\ calls = [update_room_status st (update_ok tk)]
          /\ last_dashboard_status svc' =
             (if update_ok tk then Some st else last_dashboard_status svc))).
Proof.
  unfold report_change.
  destruct changed;
    [|simpl; repeat split; auto; left; repeat split; congruence].
  assert (Hd : (if status_eqb st occupied then occupied else available) = st)
    by now destruct st.
  rewrite Hd. unfold differs_from_last.
  destruct (last_dashboard_status svc) as [l|] eqn:El.
  - destruct (status_eqb st l) eqn:E; simpl.
    + apply status_eqb_eq in E. subst l.
      destruct (status_eqb st occupied); simpl; rewrite ?El; auto 10.
    + apply status_eqb_neq in E.
      destruct (update_ok tk), (status_eqb st occupied); simpl;
        rewrite ?El; repeat split; auto; right; repeat split; congruence.
  - destruct (update_ok tk), (status_eqb st occupied); simpl;
      rewrite ?El; repeat split; auto; right; repeat split; congruence.
Qed.

(** What [check_cleaning] does, case by case. *)
Lemma check_cleaning_cases (svc : VisionService) (st : status) (tk : Tick) :
  let svc' := fst (check_cleaning svc st tk) in
  let calls := snd (check_cleaning svc st tk) in
  let due :=
    status_eqb st available && negb (cleaning_action_created svc)
    && should_trigger_cleaning (detector svc) (cleaning_timeout_minutes svc)
         (cleaning_clock tk) in
  detector svc' = detector svc
  /\ cleaning_timeout_minutes svc' = cleaning_timeout_minutes svc
  /\ last_dashboard_status svc' = last_dashboard_status svc
  /\ calls = (if due then [create_action_item (action_ok tk)] else [])
  /\ cleaning_action_created svc' =
     (if due && action_ok tk then true else cleaning_action_created svc).
Proof.
  unfold check_cleaning.
  destruct (status_eqb st available), (cleaning_action_created svc) eqn:Ec;
    simpl; auto.
  destruct (should_trigger_cleaning _ _ _); simpl; auto.
  destruct (action_ok tk); simpl; auto.
Qed.

Lemma action_requests_app (a b : list call) :
  action_requests (a ++ b) = (action_requests a + action_requests b)%nat.
Proof.
  induction a as [|[d ok|ok] a IH]; simpl; auto.
Qed.

Lemma status_updates_app (a b : list call) :
  status_updates (a ++ b) = status_updates a ++ status_updates b.
Proof.
  induction a as [|[d ok|ok] a IH]; simpl; auto. now rewrite IH.
Qed.

(** One tick, summed up: the detector is stepped by [detect]; the calls are
    at most one status update followed by at most one action creation; the
    two flags move as [report_change] and [check_cleaning] say. *)
Lemma tick_summary (svc : VisionService) (tk : Tick) (m : Z) :
  camera_frame tk = Some m ->
  let r := detect (detector svc) (Some m) (detect_clock tk) in
  let svc' := fst (process_frame svc tk) in
  let calls := snd (process_frame svc tk) in
  let reset := result_changed r && status_eqb (result_status r) occupied in
  let flag := if reset then false else cleaning_action_created svc in
  let due :=
    status_eqb (result_status r) available && negb flag
    && should_trigger_cleaning (fst r) (cleaning_timeout_minutes svc)
         (cleaning_clock tk) in
  detector svc' = fst r
  /\ cleaning_timeout_minutes svc' = cleaning_timeout_minutes svc
  /\ cleaning_action_created svc' =
     (if due && action_ok tk then true else flag)
  /\ ((calls = (if due then [create_action_item (action_ok tk)] else [])
       /\ last_dashboard_status svc' = last_dashboard_status svc
       /\ (result_changed r = true ->
           last_dashboard_status svc = Some (result_status r)))
      \/ (result_changed r = true
          /\ last_dashboard_status svc <> Some (result_status r)
          /\ calls =
             update_room_status (result_status r) (update_ok tk)
             :: (if due then [create_action_item (action_ok tk)] else [])
          /\ last_dashboard_status svc' =
             (if update_ok tk then Some (result_status r)
              else last_dashboard_status svc))).
Proof.
  intros Hf. cbv zeta. rewrite (process_frame_frame _ _ _ Hf). cbv zeta.
  set (r := detect (detector svc) (Some m) (detect_clock tk)).
  cbn [fst snd].
  destruct (report_change_cases (set_detector svc (fst r)) (result_status r)
              (result_changed r) tk) as (Hd1 & Ht1 & Hc1 & Hu1).
  destruct (check_cleaning_cases
              (fst (report_change (set_detector svc (fst r))
                      (result_status r) (result_changed r) tk))
              (result_status r) tk) as (Hd2 & Ht2 & Hl2 & Hcalls2 & Hc2).
  cbn [detector cleaning_timeout_minutes cleaning_action_created
       last_dashboard_status set_detector] in Hd1, Ht1, Hc1, Hu1.
  rewrite Hd1, Ht1, Hc1 in Hcalls2, Hc2.
  rewrite Hd2, Hd1, Ht2, Ht1, Hc2, Hl2, Hcalls2.
  repeat split.
  destruct Hu1 as [(Hcalls1 & Hl1 & Hsame)|(Hch & Hne & Hcalls1 & Hl1)];
    rewrite Hcalls1, Hl1; [left|right]; repeat split; auto.
Qed.

End ServiceFacts.

(** ** Claims on the coordinator *)

Module ServiceClaims.

Import Detector Service Spec DetectorFacts ServiceFacts.

(** A tick after which the detector is available: a set cleaning flag stays
    set and silences the tick; otherwise at most one action creation is
    requested, and its success sets the flag. *)
Lemma available_tick (svc : VisionService) (tk : Tick) :
  current_status (detector (fst (process_frame svc tk))) = available ->
  let svc' := fst (process_frame svc tk) in
  let calls := snd (process_frame svc tk) in
  (cleaning_action_created svc = true ->
   cleaning_action_created svc' = true /\ action_requests calls = O)
  /\ (action_requests calls <= 1)%nat
  /\ (action_ok tk = true -> action_requests calls = 1%nat ->
      cleaning_action_created svc' = true).
Proof.
  intros Hav. cbv zeta.
  destruct (camera_frame tk) as [m|] eqn:Hf.
  - destruct (tick_summary svc tk m Hf) as (Hd & _ & Hc & Hu).
    rewrite Hd, <- detect_returns_current in Hav.
    rewrite Hav in Hc, Hu. rewrite Hc. clear Hc Hd.
    rewrite andb_false_r in *. cbn [status_eqb andb] in *.
    assert (Hcalls : action_requests (snd (process_frame svc tk)) =
              if negb (cleaning_action_created svc)
                 && should_trigger_cleaning
                      (fst (detect (detector svc) (Some m) (detect_clock tk)))
                      (cleaning_timeout_minutes svc) (cleaning_clock tk)
              then 1%nat else O).
    { destruct Hu as [(Hcalls & _)|(_ & _ & Hcalls & _)]; rewrite Hcalls;
        destruct (negb _ && _); reflexivity. }
    rewrite Hcalls.
    destruct (cleaning_action_created svc); cbn [negb andb].
    + repeat split; auto.
    + destruct (should_trigger_cleaning _ _ _); cbn [andb].
      * repeat split; auto; try discriminate. intros Hok _. now rewrite Hok.
      * repeat split; auto; discriminate.
  - rewrite (process_frame_none _ _ Hf). simpl. repeat split; auto.
    discriminate.
Qed.

(** C6. Over a run of ticks after each of which the detector is available,
    on which every action creation that is requested succeeds, the
    coordinator requests at most one action creation, however long the
    run. *)
Theorem C6_one_cleaning_request_per_empty_period (svc : VisionService)
    (ticks : list Tick) :
  stays_available svc ticks = true ->
  forallb action_ok ticks = true ->
  (action_requests (snd (run svc ticks)) <= 1)%nat.
Proof.
  intros Hav Hok.
  enough (H : (action_requests (snd (run svc ticks)) <= 1)%nat
              /\ (cleaning_action_created svc = true ->
                  action_requests (snd (run svc ticks)) = O))
    by apply H.
  revert svc Hav Hok.
  induction ticks as [|tk ticks IH]; intros svc Hav Hok.
  - simpl. auto.
  - cbn [stays_available forallb run] in *.
    apply andb_true_iff in Hav as [Hnow Hav].
    apply andb_true_iff in Hok as [Hoknow Hok].
    apply status_eqb_eq in Hnow.
    destruct (available_tick svc tk Hnow) as (Hset & Hle & Hdone).
    destruct (process_frame svc tk) as [svc1 calls] eqn:E.
    cbn [fst snd] in *.
    destruct (IH svc1 Hav Hok) as [IHle IHset].
    destruct (run svc1 ticks) as [svc2 more]. cbn [fst snd] in *.
    rewrite action_requests_app. split.
    + destruct (action_requests calls) as [|n] eqn:En; [lia|].
      assert (n = O) by lia. subst n.
      rewrite IHset; [lia|]. now apply Hdone.
    + intros Hflag. destruct (Hset Hflag) as [Hflag1 Hnone].
      rewrite Hnone, IHset; auto.
Qed.

Lemma C6_one_cleaning_request_witness :
  let svc := fst (run Scenario.half_confident (Scenario.first_visit true)) in
  action_requests (snd (run svc (Scenario.still_empty 10))) = 1%nat
  /\ (action_requests (snd (run svc (Scenario.still_empty 10))) <= 1)%nat.
Proof.
  intros svc. split; [reflexivity|].
  apply (C6_one_cleaning_request_per_empty_period svc
           (Scenario.still_empty 10)); reflexivity.
Defined.

(** A tick that finds an available detector available again, with no
    change ever recorded, makes no call and records none. *)
Lemma idle_tick (svc : VisionService) (tk : Tick) :
  current_status (detector svc) = available ->
  last_status_change (detector svc) = None ->
  current_status (detector (fst (process_frame svc tk))) = available ->
  last_status_change (detector (fst (process_frame svc tk))) = None
  /\ snd (process_frame svc tk) = [].
Proof.
  intros Hav Hnone Hav'.
  destruct (camera_frame tk) as [m|] eqn:Hf.
  - destruct (tick_summary svc tk m Hf) as (Hd & _ & _ & Hu).
    set (r := detect (detector svc) (Some m) (detect_clock tk)) in *.
    rewrite Hd in *.
    assert (Hch : result_changed r = false).
    { destruct (result_changed r) eqn:E; [|reflexivity].
      apply detect_changed_flips in E. fold r in E. congruence. }
    assert (Hl : last_status_change (fst r) = None).
    { rewrite <- Hnone. now apply detect_unchanged_keeps_change_time. }
    split; [exact Hl|].
    destruct Hu as [(Hcalls & _)|(Habs & _)]; [|congruence].
    rewrite Hcalls.
    unfold should_trigger_cleaning, get_time_since_status_change.
    rewrite Hl, Hav'. rewrite !andb_false_r. reflexivity.
  - rewrite (process_frame_none _ _ Hf). auto.
Qed.

Lemma idle_run (ticks : list Tick) (svc : VisionService) :
  current_status (detector svc) = available ->
  last_status_change (detector svc) = None ->
  stays_available svc ticks = true ->
  snd (run svc ticks) = [].
Proof.
  revert svc.
  induction ticks as [|tk ticks IH]; intros svc Hav Hnone Hstay;
    [reflexivity|].
  cbn [stays_available run] in *.
  apply andb_true_iff in Hstay as [Hnow Hstay].
  apply status_eqb_eq in Hnow.
  destruct (idle_tick svc tk Hav Hnone Hnow) as [Hnone' Hcalls].
  destruct (process_frame svc tk) as [svc1 calls]. cbn [fst snd] in *.
  specialize (IH svc1 Hnow Hnone' Hstay).
  destruct (run svc1 ticks) as [svc2 more]. cbn [snd] in *.
  now rewrite Hcalls, IH.
Qed.

(** C10. A detector that has recorded no status change never asks for
    cleaning, whatever the timeout and the time; and a service whose
    detector is available after every tick since its start requests no
    action creation, however long it runs. *)
Theorem C10_no_cleaning_before_first_change (s : OccupancyDetector)
    (timeout now : Z) (motion : Z) (confidence : Q) (minutes : Z)
    (ticks : list Tick) :
  (last_status_change s = None ->
   should_trigger_cleaning s timeout now = false)
  /\ (stays_available (Service.init motion confidence minutes) ticks = true ->
      action_requests (snd (run (Service.init motion confidence minutes)
                              ticks)) = O).
Proof.
  split.
  - intros Hnone. unfold should_trigger_cleaning, get_time_since_status_change.
    rewrite Hnone. now destruct (negb _).
  - intros Hstay. rewrite idle_run; auto.
Qed.

Lemma C10_no_cleaning_witness :
  should_trigger_cleaning (Detector.init 500 (7 # 10)) 5 (seconds 86400)
  = false
  /\ action_requests
       (snd (run (Service.init 500 (7 # 10) 5)
               (ticks_every 0 0 (seconds 3600) true true 24))) = O.
Proof.
  split.
  - apply (C10_no_cleaning_before_first_change (Detector.init 500 (7 # 10))
             5 (seconds 86400) 500 (7 # 10) 5 []).
    reflexivity.
  - apply (C10_no_cleaning_before_first_change (Detector.init 500 (7 # 10))
             5 (seconds 86400) 500 (7 # 10) 5
             (ticks_every 0 0 (seconds 3600) true true 24)).
    reflexivity.
Defined.

(** The status update of one tick: none, and the last status sent is
    kept; or one, with a status other than the last one sent, which becomes
    the last one sent if the call succeeds. *)
Lemma tick_update (svc : VisionService) (tk : Tick) :
  let svc' := fst (process_frame svc tk) in
  let calls := snd (process_frame svc tk) in
  (status_updates calls = []
   /\ last_dashboard_status svc' = last_dashboard_status svc)
  \/ (exists d,
        status_updates calls = [(d, update_ok tk)]
        /\ last_dashboard_status svc <> Some d
        /\ last_dashboard_status svc' =
           (if update_ok tk then Some d else last_dashboard_status svc)).
Proof.
  cbv zeta. destruct (camera_frame tk) as [m|] eqn:Hf.
  - destruct (tick_summary svc tk m Hf) as (_ & _ & _ & Hu).
    destruct Hu as [(Hcalls & Hl & _)|(_ & Hne & Hcalls & Hl)];
      rewrite Hcalls.
    + left. split; [|exact Hl]. now destruct (_ && _).
    + right. eexists. repeat split; [|exact Hne|exact Hl].
      now destruct (_ && _).
  - rewrite (process_frame_none _ _ Hf). left. auto.
Qed.

Lemma debounce_run (ticks : list Tick) (svc : VisionService) :
  let l := status_updates (snd (run svc ticks)) in
  no_repeat_after_success l = true
  /\ match l with
     | [] => True
     | (d, _) :: _ => last_dashboard_status svc <> Some d
     end.
Proof.
  revert svc. induction ticks as [|tk ticks IH]; intros svc; cbv zeta.
  - simpl. auto.
  - cbn [run].
    pose proof (tick_update svc tk) as Htk. cbv zeta in Htk.
    destruct (process_frame svc tk) as [svc1 calls]. cbn [fst snd] in Htk.
    specialize (IH svc1). cbv zeta in IH.
    destruct (run svc1 ticks) as [svc2 more]. cbn [fst snd] in *.
    rewrite status_updates_app. destruct IH as [IHok IHfirst].
    destruct Htk as [[Hnone Hl]|(d & Hone & Hne & Hl)].
    + rewrite Hnone. cbn [app]. split; [exact IHok|].
      destruct (status_updates more) as [|[d2 ok2] rest]; [exact I|].
      congruence.
    + rewrite Hone. cbn [app]. split; [|exact Hne].
      destruct (status_updates more) as [|[d2 ok2] rest] eqn:Em;
        [reflexivity|].
      cbn [no_repeat_after_success]. cbn [no_repeat_after_success] in IHok.
      rewrite IHok, andb_true_r.
      destruct (update_ok tk); [|reflexivity]. cbn [negb orb].
      apply negb_true_iff, status_eqb_neq. congruence.
Qed.

(** C8 as stated fails: with the confidence threshold 0.5, the room is
    reported available at 21 s and the call fails; the next change
    reported, at 519.5 s, is again to available, and the same status is
    sent a second time. *)
Lemma C8_failed_update_is_repeated :
  let calls :=
    snd (run Scenario.half_confident
           (Scenario.first_visit false ++ Scenario.second_visit 3
            ++ Scenario.leaving_again
            ++ [Scenario.gone_again; Scenario.much_later])) in
  status_updates calls = [(available, false); (available, true)]
  /\ no_consecutive_repeat (status_updates calls) = false.
Proof. vm_compute. split; reflexivity. Qed.

(** C8, amended. Over every execution, from any state of the service, no
    status update carries the same status as the status update before it
    when that one succeeded: a status is sent twice in a row only to
    repeat a call that failed. *)
Theorem C8_no_repeat_after_success (svc : VisionService)
    (ticks : list Tick) :
  no_repeat_after_success (status_updates (snd (run svc ticks))) = true.
Proof. apply (debounce_run ticks svc). Qed.

(** The calls of a tick, read backwards: a status update in them is the
    one of [report_change], an action creation the one of
    [check_cleaning]. *)
Lemma tick_calls (svc : VisionService) (tk : Tick) :
  let svc' := fst (process_frame svc tk) in
  let calls := snd (process_frame svc tk) in
  (forall d ok, In (update_room_status d ok) calls ->
     ok = update_ok tk
     /\ last_dashboard_status svc <> Some d
     /\ last_dashboard_status svc' =
        (if ok then Some d else last_dashboard_status svc))
  /\ ((forall d ok, ~ In (update_room_status d ok) calls) ->
      last_dashboard_status svc' = last_dashboard_status svc)
  /\ (forall ok, In (create_action_item ok) calls ->
       ok = action_ok tk /\ cleaning_action_created svc' = ok)
  /\ ((forall ok, ~ In (create_action_item ok) calls) ->
      cleaning_action_created svc = false ->
      cleaning_action_created svc' = false).
Proof.
  cbv zeta. destruct (camera_frame tk) as [m|] eqn:Hf.
  - destruct (tick_summary svc tk m Hf) as (_ & _ & Hc & Hu).
    rewrite Hc. clear Hc.
    set (r := detect (detector svc) (Some m) (detect_clock tk)) in *.
    set (flag := if result_changed r && status_eqb (result_status r) occupied
                 then false else cleaning_action_created svc) in *.
    assert (Hflag : cleaning_action_created svc = false -> flag = false)
      by (subst flag; now destruct (result_changed r && _)).
    set (due := status_eqb (result_status r) available && negb flag
                && should_trigger_cleaning (fst r)
                     (cleaning_timeout_minutes svc) (cleaning_clock tk)) in *.
    assert (Hdue : due = true -> flag = false).
    { subst due. intros H. apply andb_true_iff in H as [H _].
      apply andb_true_iff in H as [_ H]. now apply negb_true_iff in H. }
    clearbody due flag.
    destruct Hu as [(Hcalls & Hl & _)|(_ & Hne & Hcalls & Hl)];
      rewrite Hcalls, Hl; clear Hcalls Hl; destruct due; cbn [andb In].
    + split; [|split; [|split]].
      * intros d ok [H|[]]. discriminate H.
      * reflexivity.
      * intros ok [H|[]]. inversion H; subst.
        rewrite (Hdue eq_refl). now destruct (action_ok tk).
      * intros H _. elim (H (action_ok tk)). now left.
    + split; [|split; [|split]]; try (intros; contradiction); auto.
    + split; [|split; [|split]].
      * intros d ok [H|[H|[]]]; [inversion H; subst|discriminate H].
        auto.
      * intros H. elim (H (result_status r) (update_ok tk)). now left.
      * intros ok [H|[H|[]]]; [discriminate H|inversion H; subst].
        rewrite (Hdue eq_refl). now destruct (action_ok tk).
      * intros H _. elim (H (action_ok tk)). right. now left.
    + split; [|split; [|split]].
      * intros d ok [H|[]]. inversion H; subst. auto.
      * intros H. elim (H (result_status r) (update_ok tk)). now left.
      * intros ok [H|[]]. discriminate H.
      * intros _. exact Hflag.
  - rewrite (process_frame_none _ _ Hf). cbn [fst snd In].
    repeat split; tauto.
Qed.

(** While a status is not sent, it does not become the last one sent. *)
Lemma run_keeps_last (mid : list Tick) (svc : VisionService) (d : status) :
  (forall ok, ~ In (update_room_status d ok) (snd (run svc mid))) ->
  last_dashboard_status svc <> Some d ->
  last_dashboard_status (fst (run svc mid)) <> Some d.
Proof.
  revert svc. induction mid as [|tk mid IH]; intros svc Hno Hne;
    [exact Hne|].
  cbn [run] in *.
  destruct (tick_update svc tk) as [[_ Hl]|(d' & Hone & _ & Hl)];
    pose proof (tick_calls svc tk) as (Hup & _);
    destruct (process_frame svc tk) as [svc1 calls]; cbn [fst snd] in *;
    specialize (IH svc1);
    destruct (run svc1 mid) as [svc2 more]; cbn [fst snd] in *;
    apply IH.
  - intros ok Hin. apply (Hno ok), in_or_app. now right.
  - congruence.
  - intros ok Hin. apply (Hno ok), in_or_app. now right.
  - rewrite Hl. destruct (update_ok tk) eqn:Eok; [|exact Hne].
    intros Heq. inversion Heq; subst d'.
    assert (Hin : In (update_room_status d true) calls).
    { clear - Hone. induction calls as [|[d0 ok0|ok0] calls IHc];
        simpl in Hone; try discriminate.
      - inversion Hone; subst. now left.
      - right. auto. }
    apply (Hno true), in_or_app. now left.
Qed.

(** While no action creation is requested, an unset cleaning flag stays
    unset. *)
Lemma run_keeps_flag_unset (mid : list Tick) (svc : VisionService) :
  (forall ok, ~ In (create_action_item ok) (snd (run svc mid))) ->
  cleaning_action_created svc = false ->
  cleaning_action_created (fst (run svc mid)) = false.
Proof.
  revert svc. induction mid as [|tk mid IH]; intros svc Hno Hunset;
    [exact Hunset|].
  cbn [run] in *.
  pose proof (tick_calls svc tk) as (_ & _ & _ & Hkeep).
  destruct (process_frame svc tk) as [svc1 calls]; cbn [fst snd] in *.
  specialize (IH svc1).
  destruct (run svc1 mid) as [svc2 more]; cbn [fst snd] in *.
  apply IH.
  - intros ok Hin. apply (Hno ok), in_or_app. now right.
  - apply Hkeep; [|exact Hunset].
    intros ok Hin. apply (Hno ok), in_or_app. now left.
Qed.

(** A tick on which a status update is due makes it, unless the status is
    the last one sent. *)
Lemma due_update_is_sent (svc : VisionService) (tk : Tick) (d : status) :
  reports_change svc tk d = true ->
  last_dashboard_status svc <> Some d ->
  In (update_room_status d (update_ok tk)) (snd (process_frame svc tk)).
Proof.
  unfold reports_change. intros Hdue Hne.
  destruct (camera_frame tk) as [m|] eqn:Hf; [|discriminate].
  cbv zeta in Hdue. apply andb_true_iff in Hdue as [Hch Hst].
  apply status_eqb_eq in Hst.
  destruct (tick_summary svc tk m Hf) as (_ & _ & _ & Hu).
  rewrite Hst in Hu.
  destruct Hu as [(_ & _ & Hsame)|(_ & _ & Hcalls & _)].
  - elim Hne. now apply Hsame.
  - rewrite Hcalls. now left.
Qed.

(** A tick on which cleaning is due requests it, if the flag is unset. *)
Lemma due_cleaning_is_requested (svc : VisionService) (tk : Tick) :
  cleaning_due svc tk = true ->
  cleaning_action_created svc = false ->
  In (create_action_item (action_ok tk)) (snd (process_frame svc tk)).
Proof.
  unfold cleaning_due. intros Hdue Hunset.
  destruct (camera_frame tk) as [m|] eqn:Hf; [|discriminate].
  cbv zeta in Hdue. apply andb_true_iff in Hdue as [Hst Htrig].
  destruct (tick_summary svc tk m Hf) as (_ & _ & _ & Hu).
  rewrite Hst, Htrig, Hunset in Hu.
  replace (if _ && status_eqb _ occupied then false else false)
    with false in Hu by now destruct (_ && status_eqb _ occupied).
  cbn [negb andb] in Hu.
  destruct Hu as [(Hcalls & _)|(_ & _ & Hcalls & _)]; rewrite Hcalls.
  - now left.
  - right. now left.
Qed.

(** C7. A status update that fails leaves [last_dashboard_status] as it was
    before the tick, and an action creation that fails leaves
    [cleaning_action_created] false. The request is made again: after the
    failure, on the first later tick on which it is due ([next], after
    ticks [mid] on which it was not made), the coordinator makes the same
    call. *)
Theorem C7_failed_call_retried (svc : VisionService) (tk : Tick)
    (d : status) (mid : list Tick) (next : Tick) :
  let svc' := fst (process_frame svc tk) in
  let calls := snd (process_frame svc tk) in
  let later := fst (run svc' mid) in
  (In (update_room_status d false) calls ->
   last_dashboard_status svc' = last_dashboard_status svc
   /\ ((forall ok, ~ In (update_room_status d ok) (snd (run svc' mid))) ->
       reports_change later next d = true ->
       In (update_room_status d (update_ok next))
          (snd (process_frame later next))))
  /\ (In (create_action_item false) calls ->
      cleaning_action_created svc' = false
      /\ ((forall ok, ~ In (create_action_item ok) (snd (run svc' mid))) ->
          cleaning_due later next = true ->
          In (create_action_item (action_ok next))
             (snd (process_frame later next)))).
Proof.
  cbv zeta. destruct (tick_calls svc tk) as (Hup & _ & Hact & _).
  split.
  - intros Hin. destruct (Hup d false Hin) as (_ & Hne & Hl).
    split; [exact Hl|]. intros Hno Hdue.
    apply due_update_is_sent; [exact Hdue|].
    apply run_keeps_last; [exact Hno|]. now rewrite Hl.
  - intros Hin. destruct (Hact false Hin) as (_ & Hflag).
    split; [exact Hflag|]. intros Hno Hdue.
    apply due_cleaning_is_requested; [exact Hdue|].
    now apply run_keeps_flag_unset.
Qed.

Lemma C7_failed_call_retried_witness :
  let svc1 :=
    fst (run Scenario.half_confident (Scenario.arrival ++ Scenario.leaving)) in
  let mid1 := Scenario.second_visit 3 ++ Scenario.leaving_again in
  let later1 :=
    fst (run (fst (process_frame svc1 (Scenario.gone false))) mid1) in
  let svc2 :=
    fst (run Scenario.half_confident (Scenario.first_visit true)) in
  let mid2 := [Scenario.camera_fails] in
  let later2 :=
    fst (run (fst (process_frame svc2 Scenario.cleaning_fails)) mid2) in
  (last_dashboard_status (fst (process_frame svc1 (Scenario.gone false)))
   = last_dashboard_status svc1
   /\ In (update_room_status available (update_ok Scenario.gone_again))
        (snd (process_frame later1 Scenario.gone_again)))
  /\ (cleaning_action_created
        (fst (process_frame svc2 Scenario.cleaning_fails)) = false
      /\ In (create_action_item (action_ok Scenario.cleaning_retry))
           (snd (process_frame later2 Scenario.cleaning_retry))).
Proof.
  intros svc1 mid1 later1 svc2 mid2 later2. split.
  - destruct (C7_failed_call_retried svc1 (Scenario.gone false) available
                mid1 Scenario.gone_again) as [H _].
    destruct H as [Hl Hretry]; [vm_compute; now left|].
    split; [exact Hl|]. apply Hretry.
    + intros ok Hno. clear - Hno. vm_compute in Hno.
      repeat (destruct Hno as [Hno|Hno]; [discriminate Hno|]).
      contradiction.
    + vm_compute. reflexivity.
  - destruct (C7_failed_call_retried svc2 Scenario.cleaning_fails available
                mid2 Scenario.cleaning_retry) as [_ H].
    destruct H as [Hflag Hretry]; [vm_compute; now left|].
    split; [exact Hflag|]. apply Hretry.
    + intros ok Hno. clear - Hno. vm_compute in Hno. contradiction.
    + vm_compute. reflexivity.
Defined.

(** Where the coordinator does reset the flag: on a tick on which [detect]
    reports a change and returns [occupied]. *)
Lemma reported_occupancy_resets_flag (svc : VisionService) (tk : Tick) :
  reports_change svc tk occupied = true ->
  cleaning_action_created (fst (process_frame svc tk)) = false.
Proof.
  unfold reports_change. intros Hdue.
  destruct (camera_frame tk) as [m|] eqn:Hf; [|discriminate].
  cbv zeta in Hdue.
  destruct (tick_summary svc tk m Hf) as (_ & _ & Hc & _).
  rewrite Hc, Hdue. apply andb_true_iff in Hdue as [_ Hst].
  apply status_eqb_eq in Hst. rewrite Hst. reflexivity.
Qed.

(** C5, with the confidence threshold 0.5 and the cleaning timeout of five
    minutes. The room is visited, found empty at 21 s, and the cleaning
    action is created at 321 s, which sets the flag. On the third motion
    frame of the next visit, at 401 s, the status of the detector goes from
    [available] to [occupied], with a confidence of 0.3 and [changed]
    false: the flag is still set after that tick. The room is left again
    and reported available at 519.5 s; at 1000 s, more than five minutes
    later, no action creation has been requested. *)
Theorem C5_flag_not_reset_on_unreported_occupancy :
  let before :=
    fst (run Scenario.half_confident
           (Scenario.first_visit true ++ Scenario.still_empty 1
            ++ Scenario.second_visit 2)) in
  let after := fst (process_frame before Scenario.third_motion_frame) in
  let rest :=
    run after (Scenario.leaving_again
               ++ [Scenario.gone_again; Scenario.much_later]) in
  cleaning_action_created before = true
  /\ current_status (detector before) = available
  /\ current_status (detector after) = occupied
  /\ cleaning_action_created after = true
  /\ current_status (detector (fst rest)) = available
  /\ last_status_change (detector (fst rest)) = Some 519500000
  /\ action_requests (snd rest) = O.
Proof. vm_compute. repeat split; reflexivity. Qed.

End ServiceClaims.

(** ** More on the detector *)

Module DetectorMore.

Import Detector Spec History DetectorFacts.

Lemma detect_all_app (s : OccupancyDetector)
    (a b : list (option Z * Clock)) :
  detect_all s (a ++ b) = detect_all (detect_all s a) b.
Proof.
  revert s. induction a as [|[f clk] a IH]; intros s; simpl; auto.
Qed.

Lemma detect_all_same_settings (calls : list (option Z * Clock))
    (s : OccupancyDetector) :
  same_settings s (detect_all s calls).
Proof.
  revert s. induction calls as [|[f clk] calls IH]; intros s.
  - now repeat split.
  - simpl. destruct (detect_same_settings s f clk) as (H1 & H2 & H3 & H4 & H5).
    destruct (IH (fst (detect s f clk))) as (K1 & K2 & K3 & K4 & K5).
    repeat split; congruence.
Qed.

(** The three outcomes of lines 81-101. *)
Lemma determine_status_cases (s : OccupancyDetector) (now : Z) :
  (determine_status s now =
     (set_current_status s occupied,
      pymin 1 (Qmake (motion_frames_count s) 10))
   /\ motion_frames_required s <= motion_frames_count s)
  \/ (determine_status s now =
        (set_current_status s available,
         pymin 1 (Qmake (no_motion_frames_count s) 60))
      /\ motion_frames_count s < motion_frames_required s
      /\ no_motion_frames_required s <= no_motion_frames_count s
      /\ (current_status s = occupied ->
          forall since, last_status_change s = Some since ->
          seconds (occupied_cooldown_seconds s) <= now - since))
  \/ (determine_status s now = (s, 1 # 2)
      /\ motion_frames_count s < motion_frames_required s
      /\ (no_motion_frames_count s < no_motion_frames_required s
          \/ (current_status s = occupied
              /\ exists since,
                   last_status_change s = Some since
                   /\ now - since < seconds (occupied_cooldown_seconds s)))).
Proof.
  unfold determine_status.
  destruct (motion_frames_count s >=? motion_frames_required s) eqn:E1.
  - left. split; [reflexivity|]. rewrite Z.geb_leb in E1.
    now apply Z.leb_le.
  - rewrite Z.geb_leb in E1. apply Z.leb_gt in E1.
    destruct (no_motion_frames_count s >=? no_motion_frames_required s)
      eqn:E2.
    + rewrite Z.geb_leb in E2. apply Z.leb_le in E2.
      destruct (current_status s);
        [right; left; repeat split; auto; discriminate|].
      destruct (last_status_change s) as [since|];
        [|right; left; repeat split; auto; discriminate].
      destruct (Qlt_bool _ _) eqn:E3.
      * right; right. repeat split; auto. right. split; [reflexivity|].
        exists since. split; [reflexivity|]. now apply in_cooldown_iff.
      * right; left. repeat split; auto. intros _ since' Heq.
        inversion Heq; subst since'.
        destruct (Z_lt_le_dec (now - since)
                    (seconds (occupied_cooldown_seconds s))) as [H|H];
          [|exact H].
        apply in_cooldown_iff in H. congruence.
    + rewrite Z.geb_leb in E2. apply Z.leb_gt in E2.
      right; right; auto.
Qed.

(** A call on a frame, by the outcome of lines 81-101: the status decided,
    the confidence, and the state left, [t] being the state after the
    motion tracking. *)
Lemma detect_cases (s : OccupancyDetector) (m : Z) (clk : Clock) :
  let t := track_motion s (m >? motion_threshold s) (now_motion clk) in
  let r := detect s (Some m) clk in
  let changed :=
    negb (status_eqb (result_status r) (current_status s))
    && Qle_bool (confidence_threshold s) (result_confidence r) in
  result_changed r = changed
  /\ fst r =
     (if changed
      then set_last_status_change (set_current_status t (result_status r))
             (Some (now_change clk))
      else set_current_status t (result_status r))
  /\ ((result_status r = occupied
       /\ result_confidence r = pymin 1 (Qmake (motion_frames_count t) 10)
       /\ motion_frames_required s <= motion_frames_count t)
      \/ (result_status r = available
          /\ result_confidence r
             = pymin 1 (Qmake (no_motion_frames_count t) 60)
          /\ motion_frames_count t < motion_frames_required s
          /\ no_motion_frames_required s <= no_motion_frames_count t
          /\ (current_status s = occupied ->
              forall since, last_status_change s = Some since ->
              seconds (occupied_cooldown_seconds s)
              <= now_cooldown clk - since))
      \/ (result_status r = current_status s
          /\ result_confidence r = 1 # 2
          /\ motion_frames_count t < motion_frames_required s
          /\ (no_motion_frames_count t < no_motion_frames_required s
              \/ (current_status s = occupied
                  /\ exists since,
                       last_status_change s = Some since
                       /\ now_cooldown clk - since
                          < seconds (occupied_cooldown_seconds s))))).
Proof.
  cbv zeta. rewrite detect_frame. cbv zeta.
  set (t := track_motion s (m >? motion_threshold s) (now_motion clk)).
  assert (Ht : current_status t = current_status s
               /\ last_status_change t = last_status_change s
               /\ motion_frames_required t = motion_frames_required s
               /\ no_motion_frames_required t = no_motion_frames_required s
               /\ occupied_cooldown_seconds t = occupied_cooldown_seconds s).
  { subst t. unfold track_motion. now destruct (m >? _). }
  destruct Ht as (Hst & Hl & Hmr & Hnr & Hcd).
  unfold result_status, result_confidence, result_changed. cbn [fst snd].
  destruct (determine_status_cases t (now_cooldown clk))
    as [[E H]|[[E H]|[E H]]]; rewrite E; cbn [fst snd];
    rewrite ?Hst, ?Hl, ?Hmr, ?Hnr, ?Hcd in H.
  - split; [reflexivity|]. split; [reflexivity|]. left. auto.
  - split; [reflexivity|]. split; [reflexivity|]. right; left. auto.
  - rewrite set_current_status_same, Hst.
    split; [reflexivity|]. split; [reflexivity|]. right; right.
    repeat split; apply H.
Qed.

(** The counters after a call on a frame. *)
Lemma detect_counters (s : OccupancyDetector) (m : Z) (clk : Clock) :
  let s' := fst (detect s (Some m) clk) in
  motion_frames_count s' =
    (if m >? motion_threshold s then motion_frames_count s + 1 else 0)
  /\ no_motion_frames_count s' =
    (if m >? motion_threshold s then 0 else no_motion_frames_count s + 1)
  /\ last_motion_time s' =
    (if m >? motion_threshold s then Some (now_motion clk)
     else last_motion_time s).
Proof.
  cbv zeta. rewrite detect_frame. cbv zeta. cbn [fst].
  destruct (determine_status _ _) as [s' c] eqn:E.
  rewrite (determine_status_frame _ _ _ _ E). cbn [fst].
  unfold track_motion.
  destruct (negb _ && _), (m >? motion_threshold s); simpl; auto.
Qed.

Lemma pymin_range (q : Q) : (0 <= q)%Q -> (0 <= pymin 1 q <= 1)%Q.
Proof.
  intros Hq. unfold pymin. destruct (Qle_bool 1 q) eqn:E.
  - split; [discriminate|apply Qle_refl].
  - split; [exact Hq|].
    destruct (Qlt_le_dec q 1) as [H|H]; [now apply Qlt_le_weak|].
    apply Qle_bool_iff in H. congruence.
Qed.

Lemma pymin_lower (a q : Q) : (a <= 1)%Q -> (a <= q)%Q -> (a <= pymin 1 q)%Q.
Proof. intros H1 Hq. unfold pymin. now destruct (Qle_bool 1 q). Qed.

Lemma streak_snoc (p : Z -> bool) (calls : list (option Z * Clock))
    (m : Z) (clk : Clock) :
  leading p (rev (frames_seen (calls ++ [(Some m, clk)]))) =
  if p m then S (leading p (rev (frames_seen calls))) else O.
Proof.
  assert (H : frames_seen (calls ++ [(Some m, clk)])
              = frames_seen calls ++ [m]).
  { induction calls as [|[[x|] c] calls IH]; simpl; auto. now rewrite IH. }
  rewrite H, rev_app_distr. reflexivity.
Qed.

Lemma streak_snoc_none (p : Z -> bool) (calls : list (option Z * Clock))
    (clk : Clock) :
  leading p (rev (frames_seen (calls ++ [(None, clk)]))) =
  leading p (rev (frames_seen calls)).
Proof.
  assert (H : frames_seen (calls ++ [(None, clk)]) = frames_seen calls).
  { induction calls as [|[[x|] c] calls IH]; simpl; auto. now rewrite IH. }
  now rewrite H.
Qed.

(** The counters of a fresh detector count the current streaks. *)
Lemma streak_counters (motion : Z) (confidence : Q)
    (calls : list (option Z * Clock)) :
  let s := detect_all (Detector.init motion confidence) calls in
  motion_frames_count s = Z.of_nat (motion_streak motion calls)
  /\ no_motion_frames_count s = Z.of_nat (quiet_streak motion calls).
Proof.
  cbv zeta. unfold motion_streak, quiet_streak.
  induction calls as [|[f clk] calls IH] using rev_ind; [now split|].
  rewrite detect_all_app. cbn [detect_all].
  set (s := detect_all (Detector.init motion confidence) calls) in *.
  destruct (detect_all_same_settings calls (Detector.init motion confidence))
    as (Hthr & _). fold s in Hthr. cbn in Hthr.
  destruct f as [m|].
  - rewrite !streak_snoc.
    destruct (detect_counters s m clk) as (Hm & Hn & _).
    rewrite Hm, Hn, Hthr. destruct IH as [IHm IHn]. rewrite IHm, IHn.
    destruct (m >? motion); cbn [negb]; split; lia.
  - rewrite !streak_snoc_none. exact IH.
Qed.

(** X1. After any sequence of calls on a fresh detector,
    [motion_frames_count] is the number of most recent frames that all show
    motion and [no_motion_frames_count] the number of most recent frames
    that all show none, calls without a frame not counting. *)
Theorem counters_are_streaks (motion : Z) (confidence : Q)
    (calls : list (option Z * Clock)) :
  let s := detect_all (Detector.init motion confidence) calls in
  motion_frames_count s = Z.of_nat (motion_streak motion calls)
  /\ no_motion_frames_count s = Z.of_nat (quiet_streak motion calls).
Proof. apply streak_counters. Qed.

Lemma detect_after (s : OccupancyDetector) (m : Z) (clk : Clock) :
  let t := track_motion s (m >? motion_threshold s) (now_motion clk) in
  let r := detect s (Some m) clk in
  current_status (fst r) = result_status r
  /\ motion_frames_count (fst r) = motion_frames_count t
  /\ no_motion_frames_count (fst r) = no_motion_frames_count t
  /\ last_status_change (fst r) =
     (if result_changed r then Some (now_change clk)
      else last_status_change s).
Proof.
  cbv zeta. destruct (detect_cases s m clk) as (Hch & Hfst & _).
  rewrite Hfst, Hch.
  destruct (negb _ && _); cbn; repeat split; unfold track_motion;
    now destruct (m >? _).
Qed.

(** X2. On a fresh detector, a call changes [current_status] to occupied
    only when the three most recent frames all show motion, and to
    available only when the forty most recent frames all show none. *)
Theorem flips_need_streaks (motion : Z) (confidence : Q)
    (calls : list (option Z * Clock)) (f : option Z) (clk : Clock) :
  let before := detect_all (Detector.init motion confidence) calls in
  let after := fst (detect before f clk) in
  current_status after <> current_status before ->
  (current_status after = occupied
   /\ (3 <= motion_streak motion (calls ++ [(f, clk)]))%nat)
  \/ (current_status after = available
      /\ (40 <= quiet_streak motion (calls ++ [(f, clk)]))%nat).
Proof.
  cbv zeta. intros Hflip.
  destruct (streak_counters motion confidence (calls ++ [(f, clk)]))
    as [Hm Hn].
  rewrite detect_all_app in Hm, Hn. cbn [detect_all] in Hm, Hn.
  set (s := detect_all (Detector.init motion confidence) calls) in *.
  destruct (detect_all_same_settings calls (Detector.init motion confidence))
    as (_ & _ & Hmr & Hnr & _). fold s in Hmr, Hnr. cbn in Hmr, Hnr.
  destruct f as [m|]; [|now elim Hflip].
  destruct (detect_after s m clk) as (Hst & Hmc & Hnc & _).
  destruct (detect_cases s m clk) as (_ & _ & Hcase).
  rewrite Hst in *. rewrite <- Hmc, <- Hnc, Hmr, Hnr in Hcase.
  destruct Hcase as [(Ho & _ & Hge)|[(Ha & _ & _ & Hge & _)|(Hsame & _)]].
  - left. split; [exact Ho|]. lia.
  - right. split; [exact Ha|]. lia.
  - now elim Hflip.
Qed.

Lemma flips_need_streaks_witness :
  let calls := calls_every 800 0 500000 2 in
  current_status
    (fst (detect (detect_all (Detector.init 500 (7 # 10)) calls)
            (Some 800) (at_time 1000000))) = occupied
  /\ (3 <= motion_streak 500%Z
              (calls ++ [(Some 800%Z, at_time 1000000%Z)]))%nat.
Proof.
  intros calls.
  destruct (flips_need_streaks 500 (7 # 10) calls (Some 800)
              (at_time 1000000)) as [H|[H _]].
  - vm_compute. discriminate.
  - exact H.
  - vm_compute in H. discriminate H.
Defined.

(** X3. Every confidence returned by a detector that started fresh lies
    between 0 and 1. *)
Theorem confidence_in_unit_interval (motion : Z) (confidence : Q)
    (calls : list (option Z * Clock)) (f : option Z) (clk : Clock) :
  let r := detect (detect_all (Detector.init motion confidence) calls) f clk in
  (0 <= result_confidence r <= 1)%Q.
Proof.
  cbv zeta.
  destruct (streak_counters motion confidence calls) as [Hm Hn].
  set (s := detect_all (Detector.init motion confidence) calls) in *.
  destruct f as [m|]; [|split; discriminate].
  destruct (detect_cases s m clk) as (_ & _ & Hcase).
  assert (Hpos : forall (z : Z) (d : positive), 0 <= z -> (0 <= Qmake z d)%Q)
    by (intros z d Hz; unfold Qle; simpl; lia).
  destruct Hcase as [(_ & Hc & _)|[(_ & Hc & _)|(_ & Hc & _)]]; rewrite Hc.
  - apply pymin_range, Hpos. unfold track_motion.
    destruct (m >? _); simpl; lia.
  - apply pymin_range, Hpos. unfold track_motion.
    destruct (m >? _); simpl; lia.
  - split; discriminate.
Qed.

(** X4. On a fresh detector, [last_motion_time] is the reading of the most
    recent frame with motion, so [get_time_since_last_motion] is [None]
    until a frame shows motion and the time since that reading
    afterwards. *)
Theorem time_since_last_motion (motion : Z) (confidence : Q)
    (calls : list (option Z * Clock)) (now : Z) :
  get_time_since_last_motion
    (detect_all (Detector.init motion confidence) calls) now =
  match last_motion motion calls None with
  | None => None
  | Some since => Some (now - since)
  end.
Proof.
  unfold get_time_since_last_motion.
  enough (H : forall s,
             last_motion_time (detect_all s calls)
             = last_motion (motion_threshold s) calls (last_motion_time s))
    by now rewrite (H (Detector.init motion confidence)).
  induction calls as [|[f clk] calls IH]; intros s; [reflexivity|].
  cbn [detect_all last_motion]. rewrite IH.
  destruct (detect_same_settings s f clk) as (Hthr & _). rewrite Hthr.
  destruct f as [m|]; [|reflexivity].
  destruct (detect_counters s m clk) as (_ & _ & Hl). now rewrite Hl.
Qed.

(** With a confidence threshold above 2/3 a change of status is never
    confident enough: it is reached at the third frame with motion
    (confidence 3/10) or at the fortieth without (confidence 40/60). *)
Lemma silent_step (s : OccupancyDetector) (f : option Z) (clk : Clock) :
  default_settings s ->
  (2 # 3 < confidence_threshold s)%Q ->
  unreported s ->
  result_changed (detect s f clk) = false
  /\ unreported (fst (detect s f clk)).
Proof.
  intros (Hmr & Hnr & _) Hthr (Hl & Hav & Hocc).
  destruct f as [m|]; [|split; [reflexivity|now repeat split]].
  destruct (detect_after s m clk) as (Hst & Hmc & Hnc & Hlc).
  destruct (detect_cases s m clk) as (Hch & _ & Hcase).
  set (r := detect s (Some m) clk) in *.
  rewrite Hmr, Hnr in Hcase.
  assert (Hlow : forall c : Q, (c <= 2 # 3)%Q ->
                   Qle_bool (confidence_threshold s) c = false).
  { intros c Hc. destruct (Qle_bool _ c) eqn:E; [|reflexivity].
    apply Qle_bool_iff in E. exfalso.
    apply (Qlt_irrefl (2 # 3)).
    eapply Qlt_le_trans; [exact Hthr|]. eapply Qle_trans; eauto. }
  assert (Hquiet : result_changed r = false).
  { rewrite Hch.
    destruct (status_eqb (result_status r) (current_status s)) eqn:Eflip;
      [reflexivity|].
    apply status_eqb_neq in Eflip. cbn [negb andb].
    destruct Hcase as [(Ho & Hc & Hge)|[(Ha & Hc & _ & Hge & _)|(Hsame & _)]];
      [| |congruence].
    - assert (Hs : current_status s = available)
        by (destruct (current_status s); congruence).
      specialize (Hav Hs).
      assert (H3 : motion_frames_count
                     (track_motion s (m >? motion_threshold s)
                        (now_motion clk)) = 3).
      { revert Hge. unfold track_motion.
        destruct (m >? _); simpl; lia. }
      rewrite Hc, H3. apply Hlow. discriminate.
    - assert (Hs : current_status s = occupied)
        by (destruct (current_status s); congruence).
      specialize (Hocc Hs).
      assert (H40 : no_motion_frames_count
                      (track_motion s (m >? motion_threshold s)
                         (now_motion clk)) = 40).
      { revert Hge. unfold track_motion.
        destruct (m >? _); simpl; lia. }
      rewrite Hc, H40. apply Hlow. discriminate. }
  split; [exact Hquiet|].
  rewrite Hquiet in Hlc.
  unfold unreported. rewrite Hlc, Hst, Hmc, Hnc. split; [exact Hl|].
  destruct Hcase as [(Ho & _ & Hge)|[(Ha & _ & Hlt & _)|(Hsame & _ & Hlt & H)]].
  - rewrite Ho. split; [discriminate|]. intros _.
    revert Hge. unfold track_motion. destruct (m >? _); simpl; lia.
  - rewrite Ha. split; [intros _; exact Hlt|discriminate].
  - split; [intros _; exact Hlt|]. intros Ho.
    destruct H as [H|(_ & since & Habs & _)]; [exact H|congruence].
Qed.

Lemma fresh_is_unreported (motion : Z) (confidence : Q) :
  unreported (Detector.init motion confidence).
Proof. unfold unreported. simpl. repeat split; try lia; discriminate. Qed.

Lemma default_settings_kept (s : OccupancyDetector) (f : option Z)
    (clk : Clock) :
  default_settings s -> default_settings (fst (detect s f clk)).
Proof.
  intros (H1 & H2 & H3).
  destruct (detect_same_settings s f clk) as (_ & _ & K1 & K2 & K3).
  repeat split; congruence.
Qed.

Lemma silent_run (calls : list (option Z * Clock)) (s : OccupancyDetector) :
  default_settings s ->
  (2 # 3 < confidence_threshold s)%Q ->
  unreported s ->
  default_settings (detect_all s calls)
  /\ confidence_threshold (detect_all s calls) = confidence_threshold s
  /\ unreported (detect_all s calls).
Proof.
  revert s. induction calls as [|[f clk] calls IH]; intros s Hd Hthr Hu;
    [auto|].
  cbn [detect_all].
  destruct (silent_step s f clk Hd Hthr Hu) as [_ Hu'].
  destruct (detect_same_settings s f clk) as (_ & Hc & _).
  destruct (IH (fst (detect s f clk))) as (K1 & K2 & K3);
    auto using default_settings_kept.
  - now rewrite Hc.
  - split; [exact K1|]. split; [congruence|exact K3].
Qed.

(** X5. A detector created with a confidence threshold above 2/3, such as
    the default 0.7, never returns [changed = True] and never records a
    status change, whatever frames it is given. *)
Theorem high_threshold_never_reports (motion : Z) (confidence : Q)
    (calls : list (option Z * Clock)) (f : option Z) (clk : Clock) :
  (2 # 3 < confidence)%Q ->
  let s := detect_all (Detector.init motion confidence) calls in
  last_status_change s = None
  /\ result_changed (detect s f clk) = false.
Proof.
  intros Hthr. cbv zeta.
  destruct (silent_run calls (Detector.init motion confidence))
    as (Hd & Hc & Hu); auto using fresh_is_unreported.
  - now repeat split.
  - split; [apply Hu|].
    apply silent_step; auto. now rewrite Hc.
Qed.

Lemma high_threshold_never_reports_witness :
  let s :=
    detect_all (Detector.init 500 (7 # 10)) (calls_every 800 0 500000 6) in
  last_status_change s = None
  /\ result_changed (detect s (Some 800) (at_time (seconds 3))) = false.
Proof.
  apply (high_threshold_never_reports 500 (7 # 10)
           (calls_every 800 0 500000 6) (Some 800) (at_time (seconds 3))).
  reflexivity.
Defined.

(** No change of status goes unreported when the threshold is at most
    3/10: the confidence of a change is at least 3/10. *)
Lemma every_flip_reported (s : OccupancyDetector)
    (f : option Z) (clk : Clock) :
  default_settings s ->
  (confidence_threshold s <= 3 # 10)%Q ->
  result_changed (detect s f clk) =
  negb (status_eqb (current_status (fst (detect s f clk)))
          (current_status s)).
Proof.
  intros (Hmr & Hnr & _) Hthr.
  destruct f as [m|]; [|simpl; now rewrite status_eqb_refl].
  destruct (detect_after s m clk) as (Hst & _).
  destruct (detect_cases s m clk) as (Hch & _ & Hcase).
  rewrite Hst, Hch. rewrite Hmr, Hnr in Hcase.
  assert (Hpos : forall (z k : Z) (d : positive),
             k <= z -> (Qmake k d <= Qmake z d)%Q)
    by (intros z k d Hz; unfold Qle; simpl; nia).
  destruct Hcase as [(_ & Hc & Hge)|[(_ & Hc & _ & Hge & _)|(Hsame & _)]].
  - replace (Qle_bool _ _) with true; [now rewrite andb_true_r|].
    symmetry. apply Qle_bool_iff. rewrite Hc.
    apply pymin_lower; [eapply Qle_trans; [exact Hthr|discriminate]|].
    eapply Qle_trans; [exact Hthr|]. now apply Hpos.
  - replace (Qle_bool _ _) with true; [now rewrite andb_true_r|].
    symmetry. apply Qle_bool_iff. rewrite Hc.
    apply pymin_lower; [eapply Qle_trans; [exact Hthr|discriminate]|].
    eapply Qle_trans; [exact Hthr|].
    eapply Qle_trans; [|apply (Hpos _ 40); exact Hge]. discriminate.
  - rewrite Hsame, status_eqb_refl. reflexivity.
Qed.

(** X6. With the frame counts of [init] and a confidence threshold of at
    most 3/10, [changed] is returned true exactly on the calls that change
    [current_status]. *)
Theorem low_threshold_reports_every_flip (s : OccupancyDetector)
    (f : option Z) (clk : Clock) :
  default_settings s ->
  (confidence_threshold s <= 3 # 10)%Q ->
  result_changed (detect s f clk) =
  negb (status_eqb (current_status (fst (detect s f clk)))
          (current_status s)).
Proof. apply every_flip_reported. Qed.

Lemma low_threshold_reports_every_flip_witness :
  result_changed
    (detect (detect_all (Detector.init 500 (3 # 10))
               (calls_every 800 0 500000 2))
       (Some 800) (at_time 1000000)) = true.
Proof.
  rewrite (low_threshold_reports_every_flip
             (detect_all (Detector.init 500 (3 # 10))
                (calls_every 800 0 500000 2))
             (Some 800) (at_time 1000000)).
  - reflexivity.
  - vm_compute. repeat split; reflexivity.
  - vm_compute. discriminate.
Defined.

Lemma detect_change_time (s : OccupancyDetector) (f : option Z)
    (clk : Clock) :
  last_status_change (fst (detect s f clk)) =
  if result_changed (detect s f clk) then Some (now_change clk)
  else last_status_change s.
Proof.
  destruct f as [m|]; [|reflexivity]. apply detect_after.
Qed.

(** Every change being reported, the change recorded is the last one. *)
Lemma change_time_is_last_flip (calls : list (option Z * Clock))
    (s : OccupancyDetector) :
  default_settings s ->
  (confidence_threshold s <= 3 # 10)%Q ->
  last_status_change (detect_all s calls) =
  last_flip s calls (last_status_change s).
Proof.
  revert s. induction calls as [|[f clk] calls IH]; intros s Hd Hthr;
    [reflexivity|].
  cbn [detect_all last_flip].
  destruct (detect_same_settings s f clk) as (_ & Hc & _).
  rewrite IH; [|now apply default_settings_kept|now rewrite Hc].
  rewrite detect_change_time.
  rewrite (every_flip_reported s f clk Hd Hthr).
  now destruct (status_eqb _ _).
Qed.

(** X7. With the frame counts of [init] and a confidence threshold of at
    most 3/10, [last_status_change] after any sequence of calls is the
    reading of line 107 on the most recent call that changed
    [current_status], and what it was before if no call did. *)
Theorem recorded_change_is_last_flip (calls : list (option Z * Clock))
    (s : OccupancyDetector) :
  default_settings s ->
  (confidence_threshold s <= 3 # 10)%Q ->
  last_status_change (detect_all s calls) =
  last_flip s calls (last_status_change s).
Proof. apply change_time_is_last_flip. Qed.

Lemma recorded_change_is_last_flip_witness :
  let calls :=
    calls_every 800 0 500000 3 ++ calls_every 0 (seconds 40) 500000 40 in
  last_status_change (detect_all (Detector.init 500 (3 # 10)) calls)
  = Some 59500000
  /\ last_flip (Detector.init 500 (3 # 10)) calls None = Some 59500000.
Proof.
  intros calls. split; [reflexivity|].
  transitivity
    (last_status_change (detect_all (Detector.init 500 (3 # 10)) calls));
    [|reflexivity].
  symmetry.
  apply (recorded_change_is_last_flip calls (Detector.init 500 (3 # 10))).
  - now repeat split.
  - discriminate.
Defined.

(** Without a call that changes the status, the status is the same. *)
Lemma no_flip_same_status (calls : list (option Z * Clock))
    (s : OccupancyDetector) (before : option Z) :
  last_flip s calls before = None ->
  current_status (detect_all s calls) = current_status s.
Proof.
  revert s before.
  induction calls as [|[f clk] calls IH]; intros s before H; [reflexivity|].
  cbn [detect_all last_flip] in *.
  destruct (status_eqb (current_status (fst (detect s f clk)))
              (current_status s)) eqn:E.
  - apply status_eqb_eq in E. rewrite <- E. eapply IH; eauto.
  - exfalso. clear IH E. revert H.
    generalize (fst (detect s f clk)) (now_change clk).
    induction calls as [|[f' clk'] calls IH]; intros s' t H;
      [discriminate|].
    cbn [last_flip] in H. destruct (status_eqb _ _); eapply IH; eauto.
Qed.

(** X8. A detector created with a confidence threshold of at most 3/10
    honours the cooldown: whenever it is occupied, the change into occupied
    has been recorded, at the reading of the call that made it, and every
    call whose reading of line 89 is less than the cooldown after it leaves
    the detector occupied. *)
Theorem cooldown_honoured (motion : Z) (confidence : Q)
    (calls : list (option Z * Clock)) :
  (confidence <= 3 # 10)%Q ->
  let s := detect_all (Detector.init motion confidence) calls in
  current_status s = occupied ->
  exists since,
    last_flip (Detector.init motion confidence) calls None = Some since
    /\ last_status_change s = Some since
    /\ forall f clk,
         now_cooldown clk - since < seconds 30 ->
         current_status (fst (detect s f clk)) = occupied.
Proof.
  intros Hthr s Hocc.
  assert (Hrec : last_status_change s
                 = last_flip (Detector.init motion confidence) calls None)
    by (apply (change_time_is_last_flip calls
                 (Detector.init motion confidence));
        [now repeat split|exact Hthr]).
  destruct (last_flip (Detector.init motion confidence) calls None)
    as [since|] eqn:E.
  - exists since. repeat split; auto. intros f clk Hcool.
    apply (cooldown_guard s f clk since); auto.
    destruct (detect_all_same_settings calls
                (Detector.init motion confidence)) as (_ & _ & _ & _ & Hcd).
    fold s in Hcd. rewrite Hcd. exact Hcool.
  - apply no_flip_same_status in E. fold s in E. simpl in E. congruence.
Qed.

Lemma cooldown_honoured_witness :
  let s :=
    detect_all (Detector.init 500 (3 # 10))
      (calls_every 800 0 500000 3 ++ calls_every 0 1500000 500000 39) in
  exists since,
    last_status_change s = Some since
    /\ current_status (fst (detect s (Some 0) (at_time (seconds 21))))
       = occupied.
Proof.
  intros s.
  destruct (cooldown_honoured 500 (3 # 10)
              (calls_every 800 0 500000 3 ++ calls_every 0 1500000 500000 39))
    as (since & Hflip & Hrec & Hkeep).
  - discriminate.
  - reflexivity.
  - exists since. split; [exact Hrec|]. apply Hkeep.
    vm_compute in Hflip. inversion Hflip. reflexivity.
Defined.

End DetectorMore.

(** ** More on the coordinator *)

Module ServiceMore.

Import Detector Service Spec History DetectorFacts ServiceFacts DetectorMore.

Lemma run_app (a b : list Tick) (svc : VisionService) :
  run svc (a ++ b) =
  (fst (run (fst (run svc a)) b),
   snd (run svc a) ++ snd (run (fst (run svc a)) b)).
Proof.
  revert svc. induction a as [|tk a IH]; intros svc.
  - simpl. now destruct (run svc b).
  - cbn [app run]. destruct (process_frame svc tk) as [svc1 calls].
    rewrite IH. destruct (run svc1 a) as [svc2 more]. cbn [fst snd].
    now rewrite app_assoc.
Qed.

(** X9. One tick makes no call, one status update, one action creation,
    or one status update followed by one action creation: never more, and
    never in the other order. *)
Theorem tick_call_shapes (svc : VisionService) (tk : Tick) :
  let calls := snd (process_frame svc tk) in
  calls = []
  \/ (exists d ok, calls = [update_room_status d ok])
  \/ (exists ok, calls = [create_action_item ok])
  \/ (exists d ok ok',
        calls = [update_room_status d ok; create_action_item ok']).
Proof.
  cbv zeta. destruct (camera_frame tk) as [m|] eqn:Hf.
  - destruct (tick_summary svc tk m Hf) as (_ & _ & _ & Hu).
    destruct Hu as [(Hcalls & _)|(_ & _ & Hcalls & _)]; rewrite Hcalls;
      destruct (_ && _ && _); eauto 10.
  - rewrite (process_frame_none _ _ Hf). now left.
Qed.

(** X10. A status update is made only on a tick with a frame on which
    [detect] changed the status of the detector with a confidence that
    meets the threshold; it carries the new status of the detector, which
    is not the last status sent. *)
Theorem update_only_on_confident_change (svc : VisionService) (tk : Tick)
    (d : status) (ok : bool) :
  In (update_room_status d ok) (snd (process_frame svc tk)) ->
  let r := detect (detector svc) (camera_frame tk) (detect_clock tk) in
  camera_frame tk <> None
  /\ d = current_status (detector (fst (process_frame svc tk)))
  /\ d <> current_status (detector svc)
  /\ (confidence_threshold (detector svc) <= result_confidence r)%Q
  /\ last_dashboard_status svc <> Some d
  /\ ok = update_ok tk.
Proof.
  intros Hin. cbv zeta. destruct (camera_frame tk) as [m|] eqn:Hf.
  - destruct (tick_summary svc tk m Hf) as (Hd & _ & _ & Hu).
    set (r := detect (detector svc) (Some m) (detect_clock tk)) in *.
    destruct Hu as [(Hcalls & _)|(Hch & Hne & Hcalls & _)];
      rewrite Hcalls in Hin.
    + destruct (_ && _ && _); simpl in Hin; intuition discriminate.
    + assert (Heq : update_room_status d ok
                    = update_room_status (result_status r) (update_ok tk)).
      { destruct (_ && _ && _); simpl in Hin;
          intuition (try discriminate; congruence). }
      inversion Heq; subst d ok. rewrite Hd.
      split; [discriminate|]. split; [apply detect_returns_current|].
      split.
      * unfold r. rewrite detect_returns_current.
        now apply detect_changed_flips.
      * split; [now apply detect_changed_confident|]. auto.
  - rewrite (process_frame_none _ _ Hf) in Hin. elim Hin.
Qed.

(** X11. An action creation is requested only on a tick that leaves the
    detector available with a recorded status change that is at least
    [cleaning_timeout_minutes] old at the reading of the cleaning check;
    the cleaning flag is then the answer of the dashboard. *)
Theorem cleaning_only_after_timeout (svc : VisionService) (tk : Tick)
    (ok : bool) :
  In (create_action_item ok) (snd (process_frame svc tk)) ->
  let svc' := fst (process_frame svc tk) in
  current_status (detector svc') = available
  /\ (exists since,
        last_status_change (detector svc') = Some since
        /\ seconds (cleaning_timeout_minutes svc * 60)
           <= cleaning_clock tk - since)
  /\ cleaning_action_created svc' = ok
  /\ ok = action_ok tk.
Proof.
  intros Hin. cbv zeta. destruct (camera_frame tk) as [m|] eqn:Hf.
  - destruct (tick_summary svc tk m Hf) as (Hd & _ & Hc & Hu).
    set (r := detect (detector svc) (Some m) (detect_clock tk)) in *.
    set (flag := if result_changed r && status_eqb (result_status r) occupied
                 then false else cleaning_action_created svc) in *.
    destruct (status_eqb (result_status r) available) eqn:Hav.
    2:{ cbn [andb] in Hu.
        destruct Hu as [(Hcalls & _)|(_ & _ & Hcalls & _)];
          rewrite Hcalls in Hin; simpl in Hin; intuition discriminate. }
    destruct flag.
    1:{ cbn [andb negb] in Hu.
        destruct Hu as [(Hcalls & _)|(_ & _ & Hcalls & _)];
          rewrite Hcalls in Hin; simpl in Hin; intuition discriminate. }
    destruct (should_trigger_cleaning (fst r) (cleaning_timeout_minutes svc)
                (cleaning_clock tk)) eqn:Htrig.
    2:{ cbn [andb negb] in Hu.
        destruct Hu as [(Hcalls & _)|(_ & _ & Hcalls & _)];
          rewrite Hcalls in Hin; simpl in Hin; intuition discriminate. }
    cbn [andb negb] in Hu, Hc.
    assert (Hok : ok = action_ok tk).
    { destruct Hu as [(Hcalls & _)|(_ & _ & Hcalls & _)];
        rewrite Hcalls in Hin; simpl in Hin;
        intuition (try discriminate; congruence). }
    rewrite Hd, Hc. apply status_eqb_eq in Hav.
    split; [unfold r; rewrite <- detect_returns_current; exact Hav|].
    split; [|split; [rewrite Hok; now destruct (action_ok tk)|exact Hok]].
    unfold should_trigger_cleaning, get_time_since_status_change in Htrig.
    destruct (negb _); [discriminate|].
    destruct (last_status_change (fst r)) as [since|]; [|discriminate].
    exists since. split; [reflexivity|]. now apply timeout_reached_iff.
  - rewrite (process_frame_none _ _ Hf) in Hin. elim Hin.
Qed.

Lemma update_only_on_confident_change_witness :
  let svc :=
    fst (run Scenario.half_confident (Scenario.arrival ++ Scenario.leaving)) in
  available
  = current_status (detector (fst (process_frame svc (Scenario.gone true))))
  /\ available <> current_status (detector svc)
  /\ last_dashboard_status svc <> Some available.
Proof.
  intros svc.
  destruct (update_only_on_confident_change svc (Scenario.gone true)
              available true) as (_ & H1 & H2 & _ & H3 & _).
  - vm_compute. now left.
  - auto.
Defined.

Lemma cleaning_only_after_timeout_witness :
  let svc := fst (run Scenario.half_confident (Scenario.first_visit true)) in
  current_status
    (detector (fst (process_frame svc Scenario.cleaning_fails))) = available
  /\ cleaning_action_created (fst (process_frame svc Scenario.cleaning_fails))
     = false.
Proof.
  intros svc.
  destruct (cleaning_only_after_timeout svc Scenario.cleaning_fails false)
    as (H1 & _ & H2 & _).
  - vm_compute. now left.
  - auto.
Defined.

(** X12. Ticks on which the camera gives no frame change nothing: a run
    leaves the same state and makes the same calls as the run of its ticks
    that have a frame. *)
Theorem frameless_ticks_are_skipped (ticks : list Tick)
    (svc : VisionService) :
  run svc ticks = run svc (filter has_frame ticks).
Proof.
  revert svc. induction ticks as [|tk ticks IH]; intros svc; [reflexivity|].
  cbn [filter]. unfold has_frame at 1.
  destruct (camera_frame tk) as [m|] eqn:Hf.
  - cbn [run]. destruct (process_frame svc tk) as [svc1 calls].
    now rewrite IH.
  - cbn [run]. rewrite (process_frame_none _ _ Hf). rewrite IH.
    now destruct (run svc _).
Qed.

Lemma last_sent_app (a b : list (status * bool)) (before : option status) :
  last_sent (a ++ b) before = last_sent b (last_sent a before).
Proof.
  revert before. induction a as [|[d ok] a IH]; intros before; simpl; auto.
Qed.

(** The status update of one tick and [last_dashboard_status]. *)
Lemma tick_last_sent (svc : VisionService) (tk : Tick) :
  last_dashboard_status (fst (process_frame svc tk)) =
  last_sent (status_updates (snd (process_frame svc tk)))
    (last_dashboard_status svc).
Proof.
  destruct (camera_frame tk) as [m|] eqn:Hf.
  - destruct (tick_summary svc tk m Hf) as (_ & _ & _ & Hu).
    destruct Hu as [(Hcalls & Hl & _)|(_ & _ & Hcalls & Hl)];
      rewrite Hcalls, Hl; now destruct (_ && _ && _).
  - now rewrite (process_frame_none _ _ Hf).
Qed.

(** X13. After any run, [last_dashboard_status] is the status of the most
    recent status update that the dashboard accepted, and what it was
    before the run if none was accepted. *)
Theorem last_dashboard_status_is_last_accepted (ticks : list Tick)
    (svc : VisionService) :
  last_dashboard_status (fst (run svc ticks)) =
  last_sent (status_updates (snd (run svc ticks)))
    (last_dashboard_status svc).
Proof.
  revert svc. induction ticks as [|tk ticks IH]; intros svc; [reflexivity|].
  cbn [run]. pose proof (tick_last_sent svc tk) as Htk.
  destruct (process_frame svc tk) as [svc1 calls]. cbn [fst snd] in Htk.
  specialize (IH svc1). destruct (run svc1 ticks) as [svc2 more].
  cbn [fst snd] in *.
  now rewrite status_updates_app, last_sent_app, <- Htk.
Qed.

(** One tick of a service whose detector has a confidence threshold above
    2/3 and no change on record. *)
Lemma silent_tick (svc : VisionService) (tk : Tick) :
  default_settings (detector svc) ->
  (2 # 3 < confidence_threshold (detector svc))%Q ->
  unreported (detector svc) ->
  process_frame svc tk
  = (set_detector svc
       (fst (detect (detector svc) (camera_frame tk) (detect_clock tk))),
     []).
Proof.
  intros Hd Hthr Hu.
  destruct (camera_frame tk) as [m|] eqn:Hf.
  - destruct (silent_step (detector svc) (Some m) (detect_clock tk) Hd Hthr Hu)
      as [Hquiet (Hl & _)].
    rewrite (process_frame_frame _ _ _ Hf). cbv zeta. rewrite Hquiet.
    unfold report_change, check_cleaning. cbn [fst snd].
    unfold should_trigger_cleaning, get_time_since_status_change.
    cbn [detector set_detector]. rewrite Hl.
    destruct (status_eqb _ available && _); [|reflexivity].
    now destruct (negb _).
  - rewrite (process_frame_none _ _ Hf). simpl. now destruct svc.
Qed.

(** X14. A service started with a confidence threshold above 2/3, such as
    the default 0.7, never calls the dashboard: over any run it sends no
    status update and requests no action creation. *)
Theorem high_threshold_service_is_silent (motion : Z) (confidence : Q)
    (minutes : Z) (ticks : list Tick) :
  (2 # 3 < confidence)%Q ->
  snd (run (Service.init motion confidence minutes) ticks) = [].
Proof.
  intros Hthr.
  enough (H : forall svc,
             default_settings (detector svc) ->
             (2 # 3 < confidence_threshold (detector svc))%Q ->
             unreported (detector svc) ->
             snd (run svc ticks) = []).
  { apply H; [now repeat split|exact Hthr|apply fresh_is_unreported]. }
  induction ticks as [|tk ticks IH]; intros svc Hd Hc Hu; [reflexivity|].
  cbn [run]. rewrite (silent_tick svc tk Hd Hc Hu).
  destruct (silent_step (detector svc) (camera_frame tk) (detect_clock tk)
              Hd Hc Hu) as [_ Hu'].
  destruct (detect_same_settings (detector svc) (camera_frame tk)
              (detect_clock tk)) as (_ & Hc' & _).
  specialize (IH (set_detector svc
                    (fst (detect (detector svc) (camera_frame tk)
                            (detect_clock tk))))).
  cbn [detector set_detector] in IH.
  destruct (run _ ticks) as [svc2 more]. cbn [snd] in *.
  apply IH; auto using default_settings_kept. now rewrite Hc'.
Qed.

Lemma high_threshold_service_is_silent_witness :
  snd (run (Service.init 500 (7 # 10) 5)
         (Scenario.first_visit true ++ Scenario.still_empty 3)) = [].
Proof.
  apply (high_threshold_service_is_silent 500 (7 # 10) 5).
  reflexivity.
Defined.

(** X15. When the detector has the frame counts of [init] and a
    confidence threshold of at most 3/10, every tick on which its status
    goes from available to occupied leaves the cleaning flag unset. *)
Theorem low_threshold_resets_flag (svc : VisionService) (tk : Tick) :
  default_settings (detector svc) ->
  (confidence_threshold (detector svc) <= 3 # 10)%Q ->
  current_status (detector svc) = available ->
  current_status (detector (fst (process_frame svc tk))) = occupied ->
  cleaning_action_created (fst (process_frame svc tk)) = false.
Proof.
  intros Hd Hthr Hav Hocc.
  destruct (camera_frame tk) as [m|] eqn:Hf.
  - destruct (tick_summary svc tk m Hf) as (Hdet & _ & Hc & _).
    rewrite Hdet in Hocc.
    pose proof (every_flip_reported (detector svc) (Some m)
                  (detect_clock tk) Hd Hthr) as Hch.
    rewrite Hocc, Hav in Hch. cbn [status_eqb negb] in Hch.
    rewrite <- detect_returns_current in Hocc.
    rewrite Hc, Hch, Hocc. reflexivity.
  - rewrite (process_frame_none _ _ Hf) in Hocc. simpl in Hocc. congruence.
Qed.

Lemma low_threshold_resets_flag_witness :
  let svc :=
    fst (run (Service.init 500 (3 # 10) 5)
           (Scenario.first_visit true ++ [tick_at 0 (seconds 40) true true]
            ++ Scenario.second_visit 2)) in
  cleaning_action_created svc = true
  /\ cleaning_action_created
       (fst (process_frame svc Scenario.third_motion_frame)) = false.
Proof.
  intros svc. split; [reflexivity|].
  apply (low_threshold_resets_flag svc Scenario.third_motion_frame).
  - vm_compute. repeat split; reflexivity.
  - vm_compute. discriminate.
  - reflexivity.
  - reflexivity.
Defined.

(** The status the dashboard should hold: none before the first recorded
    change, the status of the detector afterwards. *)
Lemma in_sync_tick (svc : VisionService) (tk : Tick) :
  default_settings (detector svc) ->
  (confidence_threshold (detector svc) <= 3 # 10)%Q ->
  update_ok tk = true ->
  last_dashboard_status svc =
    match last_status_change (detector svc) with
    | None => None
    | Some _ => Some (current_status (detector svc))
    end ->
  let svc' := fst (process_frame svc tk) in
  last_dashboard_status svc' =
    match last_status_change (detector svc') with
    | None => None
    | Some _ => Some (current_status (detector svc'))
    end.
Proof.
  intros Hd Hthr Hok Hsync. cbv zeta.
  destruct (camera_frame tk) as [m|] eqn:Hf.
  - destruct (tick_summary svc tk m Hf) as (Hdet & _ & _ & Hu).
    set (r := detect (detector svc) (Some m) (detect_clock tk)) in *.
    pose proof (every_flip_reported (detector svc) (Some m)
                  (detect_clock tk) Hd Hthr) as Hch. fold r in Hch.
    pose proof (detect_change_time (detector svc) (Some m) (detect_clock tk))
      as Hl. fold r in Hl.
    pose proof (detect_returns_current (detector svc) (Some m)
                  (detect_clock tk)) as Hst. fold r in Hst.
    rewrite Hdet, Hl. rewrite Hok in Hu.
    destruct (result_changed r) eqn:Echanged.
    + rewrite <- Hst.
      destruct Hu as [(_ & Hlast & Hsame)|(_ & _ & _ & Hlast)];
        rewrite Hlast; auto.
    + symmetry in Hch. apply negb_false_iff, status_eqb_eq in Hch.
      rewrite Hch.
      destruct Hu as [(_ & Hlast & _)|(Habs & _)]; [|discriminate].
      now rewrite Hlast.
  - now rewrite (process_frame_none _ _ Hf).
Qed.

(** X16. With a confidence threshold of at most 3/10 and a dashboard that
    accepts every status update, the last status sent follows the
    detector: after any run it is the current status of the detector, or
    none if the status has not changed since the start. *)
Theorem dashboard_follows_detector (motion : Z) (confidence : Q)
    (minutes : Z) (ticks : list Tick) :
  (confidence <= 3 # 10)%Q ->
  forallb update_ok ticks = true ->
  let svc := fst (run (Service.init motion confidence minutes) ticks) in
  last_dashboard_status svc =
    match last_status_change (detector svc) with
    | None => None
    | Some _ => Some (current_status (detector svc))
    end.
Proof.
  intros Hthr Hok. cbv zeta.
  enough (H : forall svc,
             default_settings (detector svc) ->
             (confidence_threshold (detector svc) <= 3 # 10)%Q ->
             last_dashboard_status svc =
               match last_status_change (detector svc) with
               | None => None
               | Some _ => Some (current_status (detector svc))
               end ->
             last_dashboard_status (fst (run svc ticks)) =
               match last_status_change (detector (fst (run svc ticks))) with
               | None => None
               | Some _ =>
                   Some (current_status (detector (fst (run svc ticks))))
               end).
  { apply H; [now repeat split|exact Hthr|reflexivity]. }
  induction ticks as [|tk ticks IH]; intros svc Hd Hc Hsync; [exact Hsync|].
  cbn [forallb run] in *. apply andb_true_iff in Hok as [Hnow Hok].
  pose proof (in_sync_tick svc tk Hd Hc Hnow Hsync) as Hstep.
  cbv zeta in Hstep.
  assert (Hset : same_settings (detector svc)
                   (detector (fst (process_frame svc tk)))).
  { destruct (camera_frame tk) as [m|] eqn:Hf.
    - destruct (tick_summary svc tk m Hf) as (Hdet & _). rewrite Hdet.
      apply detect_same_settings.
    - rewrite (process_frame_none _ _ Hf). now repeat split. }
  destruct Hset as (_ & Hc' & Hm' & Hn' & Hcd').
  destruct (process_frame svc tk) as [svc1 calls]. cbn [fst snd] in *.
  specialize (IH Hok svc1).
  destruct (run svc1 ticks) as [svc2 more]. cbn [fst snd] in *.
  apply IH; auto.
  - destruct Hd as (H1 & H2 & H3). repeat split; congruence.
  - now rewrite Hc'.
Qed.

Lemma dashboard_follows_detector_witness :
  let svc :=
    fst (run (Service.init 500 (3 # 10) 5) (Scenario.first_visit true)) in
  last_dashboard_status svc = Some occupied
  /\ current_status (detector svc) = occupied.
Proof.
  cbv zeta. split; [|reflexivity].
  rewrite (dashboard_follows_detector 500 (3 # 10) 5
             (Scenario.first_visit true)); [reflexivity|discriminate|].
  reflexivity.
Defined.

End ServiceMore.

(** ** The camera *)

Module CameraFacts.

Import Camera.

(** What [connect] returns depends on the device only. *)
Lemma connect_result (self other : Camera) (dev : Device) :
  snd (connect self dev) = snd (connect other dev).
Proof.
  unfold connect.
  destruct (construct_ok dev); [|reflexivity]. simpl.
  destruct (is_opened dev) as [[|]|]; try reflexivity.
  destruct (configure_ok dev); [|reflexivity]. simpl.
  destruct (test_read dev) as [[ret frame]|]; [|reflexivity].
  now destruct (usable ret frame).
Qed.

(** [connect] sets [is_connected] when it succeeds and leaves it alone
    when it fails; a camera that is connected has a capture. *)
Lemma connect_flag (self : Camera) (dev : Device) :
  is_connected (fst (connect self dev))
  = is_connected self || snd (connect self dev)
  /\ ((is_connected self = true -> capture self <> None) ->
      is_connected (fst (connect self dev)) = true ->
      capture (fst (connect self dev)) <> None).
Proof.
  unfold connect.
  destruct (construct_ok dev); simpl;
    [|split; [now rewrite orb_false_r|auto]].
  destruct (is_opened dev) as [[|]|]; simpl;
    try (split; [now rewrite orb_false_r|discriminate]).
  destruct (configure_ok dev); simpl;
    try (split; [now rewrite orb_false_r|discriminate]).
  destruct (test_read dev) as [[ret frame]|]; simpl;
    try (split; [now rewrite orb_false_r|discriminate]).
  destruct (usable ret frame); simpl;
    (split; [now rewrite ?orb_false_r, ?orb_true_r|discriminate]).
Qed.

Lemma connected_has_capture (ops : list operation) (self : Camera) :
  (is_connected self = true -> capture self <> None) ->
  is_connected (apply_all self ops) = true ->
  capture (apply_all self ops) <> None.
Proof.
  revert self. unfold apply_all.
  induction ops as [|o ops IH]; intros self Hinv; [exact Hinv|].
  cbn [fold_left]. apply IH. destruct o as [dev|rd|]; cbn [apply].
  - now apply connect_flag.
  - exact Hinv.
  - unfold disconnect. destruct (capture self) eqn:E; simpl.
    + discriminate.
    + rewrite E. exact Hinv.
Qed.

Lemma disconnected_camera_frame (index : Z) (ops : list operation)
    (rd : Read) :
  get_frame (disconnect (apply_all (init index) ops)) rd = None.
Proof.
  pose proof (connected_has_capture ops (init index)) as Hinv.
  set (cam := apply_all (init index) ops) in *.
  assert (H : is_connected (disconnect cam) = false).
  { unfold disconnect. destruct (capture cam) eqn:E; [reflexivity|].
    destruct (is_connected cam) eqn:Ec; [|reflexivity].
    exfalso. apply Hinv; auto. discriminate. }
  unfold get_frame. now rewrite H.
Qed.

(** X17. Whatever was done with a camera since it was created, after
    [disconnect] it is not connected, [get_frame] returns [None] whatever
    the device would read, and [is_healthy] is false. *)
Theorem disconnected_camera_gives_no_frame (index : Z)
    (ops : list operation) (rd : Read) (opened : bool) :
  let cam := disconnect (apply_all (init index) ops) in
  is_connected cam = false
  /\ get_frame cam rd = None
  /\ is_healthy cam opened = false.
Proof.
  cbv zeta.
  pose proof (connected_has_capture ops (init index)) as Hinv.
  set (cam := apply_all (init index) ops) in *.
  assert (H : is_connected (disconnect cam) = false).
  { unfold disconnect. destruct (capture cam) eqn:E; [reflexivity|].
    destruct (is_connected cam) eqn:Ec; [|reflexivity].
    exfalso. apply Hinv; auto. discriminate. }
  unfold get_frame, is_healthy. rewrite H. auto.
Qed.

(** X18. [get_frame] delivers a frame only if a [connect] succeeded before
    and the device reads a frame now: the frame delivered is the frame
    read. *)
Theorem frame_needs_successful_connect (index : Z) (ops : list operation)
    (rd : Read) (frame : Z) :
  get_frame (apply_all (init index) ops) rd = Some frame ->
  rd = Some (true, Some frame)
  /\ exists dev,
       In (do_connect dev) ops /\ snd (connect (init index) dev) = true.
Proof.
  intros Hget. split.
  - unfold get_frame in Hget. destruct (negb _ || _); [discriminate|].
    destruct rd as [[[|] [f|]]|]; unfold usable in Hget; simpl in Hget;
      try discriminate.
    congruence.
  - assert (Hc : is_connected (apply_all (init index) ops) = true).
    { unfold get_frame in Hget.
      destruct (is_connected _); [reflexivity|discriminate]. }
    clear Hget.
    enough (H : forall self,
               is_connected (apply_all self ops) = true ->
               is_connected self = true
               \/ exists dev,
                    In (do_connect dev) ops
                    /\ snd (connect (init index) dev) = true).
    { destruct (H (init index) Hc) as [Habs|Hex]; [discriminate|exact Hex]. }
    clear Hc. unfold apply_all.
    induction ops as [|o ops IH]; intros self Hc; [now left|].
    cbn [fold_left] in Hc. destruct (IH _ Hc) as [Hnow|(dev & Hin & Hok)].
    + destruct o as [dev|rd'|]; cbn [apply] in Hnow.
      * destruct (connect_flag self dev) as [Hflag _].
        rewrite Hflag in Hnow. apply orb_true_iff in Hnow as [H|H];
          [now left|].
        right. exists dev. split; [now left|].
        now rewrite (connect_result (init index) self).
      * now left.
      * left. unfold disconnect in Hnow.
        destruct (capture self); [discriminate|exact Hnow].
    + right. exists dev. split; [now right|exact Hok].
Qed.

Lemma frame_needs_successful_connect_witness :
  let dev :=
    {| construct_ok := true; is_opened := Some true; configure_ok := true;
       test_read := Some (true, Some 0) |} in
  exists d,
    In (do_connect d) [do_connect dev]
    /\ snd (connect (init 0) d) = true.
Proof.
  intros dev.
  apply (frame_needs_successful_connect 0 [do_connect dev]
           (Some (true, Some 800)) 800).
  reflexivity.
Defined.

End CameraFacts.

(** ** The addresses of the dashboard *)

Module DashboardFacts.

Import String Dashboard.

Lemma rstrip_only_slashes (n : nat) : rstrip_slash (slashes n) = EmptyString.
Proof.
  induction n as [|n IH]; [reflexivity|].
  cbn [slashes rstrip_slash]. now rewrite IH.
Qed.

Lemma rstrip_append_slashes (s : string) (n : nat) :
  rstrip_slash (s ++ slashes n) = rstrip_slash s.
Proof.
  induction s as [|c s IH]; cbn [append rstrip_slash].
  - apply rstrip_only_slashes.
  - now rewrite IH.
Qed.

Lemma rstrip_splits (s : string) :
  exists n, s = (rstrip_slash s ++ slashes n)%string.
Proof.
  induction s as [|c s [n IH]]; [now exists O|].
  cbn [rstrip_slash]. destruct (rstrip_slash s) as [|c' kept] eqn:E.
  - destruct (Ascii.eqb c slash) eqn:Ec.
    + apply Ascii.eqb_eq in Ec. subst c. exists (S n).
      cbn [append slashes]. now rewrite IH at 1.
    + exists n. cbn [append]. now rewrite IH at 1.
  - exists n. cbn [append] in *. now rewrite IH at 1.
Qed.

Lemma rstrip_no_trailing_slash (s : string) :
  ends_with_slash (rstrip_slash s) = false.
Proof.
  induction s as [|c s IH]; [reflexivity|].
  cbn [rstrip_slash]. destruct (rstrip_slash s) as [|c' kept] eqn:E.
  - destruct (Ascii.eqb c slash) eqn:Ec; [reflexivity|].
    simpl. exact Ec.
  - exact IH.
Qed.

(** X19. The base address kept by the client is the one given without its
    trailing slashes: nothing else is removed, and no slash is left at the
    end. *)
Theorem base_url_drops_trailing_slashes (url key : string) :
  ends_with_slash (base_url (init url key)) = false
  /\ exists n, url = (base_url (init url key) ++ slashes n)%string.
Proof.
  split; [apply rstrip_no_trailing_slash|apply rstrip_splits].
Qed.

(** X20. Base addresses that differ in trailing slashes only give the same
    addresses for the three requests. *)
Theorem trailing_slashes_do_not_matter (url key room : string) (n : nat) :
  room_status_url (init (url ++ slashes n) key) room
  = room_status_url (init url key) room
  /\ actions_url (init (url ++ slashes n) key) = actions_url (init url key)
  /\ health_url (init (url ++ slashes n) key) = health_url (init url key).
Proof.
  unfold room_status_url, actions_url, health_url, init. cbn [base_url].
  now rewrite rstrip_append_slashes.
Qed.

End DashboardFacts.

(** ** Starting and stopping *)

Module LoopFacts.

Import Detector Service Loop.

(** X21. [start] succeeds exactly when the camera connects, whatever the
    dashboard answers to the health check; the service is then running
    with a connected camera. When [start] fails the service is not
    running, and a [process_frame] on it changes nothing and makes no
    call. *)
Theorem start_depends_on_camera_only (index motion : Z) (confidence : Q)
    (minutes : Z) (dev : Camera.Device) (health : bool)
    (rd : Camera.Read) (tk : Tick) :
  let fresh := Loop.init index motion confidence minutes in
  let started := fst (start fresh dev health) in
  let ok := snd (start fresh dev health) in
  ok = snd (Camera.connect (Camera.init index) dev)
  /\ running started = ok
  /\ Camera.is_connected (camera started) = ok
  /\ vision started = vision fresh
  /\ (ok = false -> Loop.process_frame started rd tk = (started, [])).
Proof.
  cbv zeta. unfold start, Loop.init. cbn [camera vision running].
  destruct (CameraFacts.connect_flag (Camera.init index) dev) as [Hflag _].
  cbn [Camera.is_connected Camera.init orb] in Hflag.
  destruct (Camera.connect (Camera.init index) dev) as [cam connected].
  cbn [fst snd] in *. destruct connected; cbn [negb fst snd camera running
                                               vision].
  - repeat split; auto. discriminate.
  - repeat split; auto. intros _.
    unfold Loop.process_frame. cbn [camera vision running].
    unfold Camera.get_frame. rewrite Hflag. reflexivity.
Qed.

Lemma start_depends_on_camera_only_witness :
  let dev :=
    {| Camera.construct_ok := true; Camera.is_opened := Some false;
       Camera.configure_ok := true; Camera.test_read := None |} in
  let started := fst (start (Loop.init 0 500 (7 # 10) 5) dev true) in
  Loop.process_frame started (Some (true, Some 800))
    (Spec.tick_at 800 0 true true) = (started, []).
Proof.
  intros dev started.
  apply (start_depends_on_camera_only 0 500 (7 # 10) 5 dev true
           (Some (true, Some 800)) (Spec.tick_at 800 0 true true)).
  reflexivity.
Defined.

(** X22. After [stop], a service whose camera was only ever used through
    its methods is not running, and a [process_frame] on it changes nothing
    and makes no call, whatever the device would read. *)
Theorem stopped_service_processes_nothing (self : Process) (index : Z)
    (ops : list Camera.operation) (rd : Camera.Read) (tk : Tick) :
  camera self = Camera.apply_all (Camera.init index) ops ->
  running (stop self) = false
  /\ Loop.process_frame (stop self) rd tk = (stop self, []).
Proof.
  intros Hcam. split; [reflexivity|].
  unfold stop, Loop.process_frame. cbn [camera vision running].
  rewrite Hcam.
  rewrite (CameraFacts.disconnected_camera_frame index ops rd).
  reflexivity.
Qed.

Lemma stopped_service_processes_nothing_witness :
  let dev :=
    {| Camera.construct_ok := true; Camera.is_opened := Some true;
       Camera.configure_ok := true;
       Camera.test_read := Some (true, Some 0) |} in
  let started := fst (start (Loop.init 0 500 (3 # 10) 5) dev true) in
  Loop.process_frame started (Some (true, Some 800))
    (Spec.tick_at 800 0 true true) <> (started, [])
  /\ Loop.process_frame (stop started) (Some (true, Some 800))
       (Spec.tick_at 800 0 true true) = (stop started, []).
Proof.
  intros dev started. split; [vm_compute; discriminate|].
  apply (stopped_service_processes_nothing started 0
           [Camera.do_connect dev]).
  reflexivity.
Defined.

End LoopFacts.
